(** * Iceberg query front-end (src/app.py): latest-snapshot resolution,
      query running and result display, embedded in Rocq.

    The Python functions are embedded shallowly.  The query engine (the
    Spark session and its DataFrame operations) and the UI toolkit are the
    program's collaborators; the part of their behaviour that app.py relies
    on is written out below: column names resolved without regard to
    letter case at analysis time, lazy plans whose rows appear only when
    an action runs, SQL equality with NULL and with a cast between a
    string and a number, descending sort with NULLS LAST, window
    [row_number], and the UI calls as events appended to the screen.
    What the engine is free to choose (the order in which it meets the
    rows, hence the order of tied rows and of the rows it returns; its
    casts; the wording of its analysis errors; the cells of a converted
    table) is a component of the engine, and the properties are proved
    for every engine. *)

From Stdlib Require Import ZArith NArith List String Ascii Bool Lia.
From Stdlib Require Import Permutation Sorted.
Import ListNotations.

Open Scope string_scope.
Open Scope list_scope.

(** ** Cell values and rows *)

(** A cell of a row: SQL NULL (Python [None]), an integral value (long,
    timestamp) or a string. *)
Inductive value : Type :=
| VNull
| VInt (z : Z)
| VStr (s : string).

Definition value_eqb (a b : value) : bool :=
  match a, b with
  | VNull, VNull => true
  | VInt x, VInt y => Z.eqb x y
  | VStr x, VStr y => String.eqb x y
  | _, _ => false
  end.

(** The engine's ordering of cells.  NULL is the least value, so a
    descending sort puts NULLs last; strings are ordered lexicographically. *)
Definition value_leb (a b : value) : bool :=
  match a, b with
  | VNull, _ => true
  | VInt _, VNull => false
  | VInt x, VInt y => Z.leb x y
  | VInt _, VStr _ => true
  | VStr x, VStr y => String.leb x y
  | VStr _, _ => false
  end.

(** The engine compares column names without regard to the case of the
    letters A to Z (its default setting, which app.py leaves as it is). *)
Definition lower_ascii (c : ascii) : ascii :=
  let n := N_of_ascii c in
  if ((65 <=? n) && (n <=? 90))%N then ascii_of_N (n + 32) else c.

Fixpoint lower (s : string) : string :=
  match s with
  | EmptyString => EmptyString
  | String c s' => String (lower_ascii c) (lower s')
  end.

Definition name_eqb (a b : string) : bool :=
  String.eqb (lower a) (lower b).

(** A row carries its field names, like [pyspark.sql.Row]. *)
Definition Row : Type := list (string * value).

(** Python's [row[name]]: the first field of exactly that name. *)
Fixpoint field (name : string) (r : Row) : option value :=
  match r with
  | [] => None
  | (n, v) :: r' => if String.eqb n name then Some v else field name r'
  end.

(** The engine's reading of the column [name] in a row. *)
Fixpoint col_field (name : string) (r : Row) : option value :=
  match r with
  | [] => None
  | (n, v) :: r' => if name_eqb n name then Some v else col_field name r'
  end.

(** Value of the column expression [col(name)] on a row. *)
Definition cell (name : string) (r : Row) : value :=
  match col_field name r with
  | Some v => v
  | None => VNull
  end.

Definition has_column (name : string) (cols : list string) : bool :=
  existsb (fun c => name_eqb c name) cols.

Definition has_field (name : string) (r : Row) : bool :=
  existsb (fun p => name_eqb (fst p) name) r.

(** [withColumn] on one row: every field of that name is replaced, and
    takes the name as it is written in the call; when there is none the
    new field is appended. *)
Definition set_field (name : string) (v : value) (r : Row) : Row :=
  if has_field name r
  then map (fun p => if name_eqb (fst p) name then (name, v) else p) r
  else r ++ [(name, v)].

(** [drop] on one row. *)
Definition drop_field (name : string) (r : Row) : Row :=
  filter (fun p => negb (name_eqb (fst p) name)) r.

(** ** Exceptions and outcomes *)

(** An exception with what [str(e)] needs: the message of the engine, or
    the item of a [ValueError]. *)
Inductive exn : Type :=
| EngineError (msg : string)
| AnalysisException (msg : string)
| IndexError
| ValueError (item : string).

(** [str(e)] *)
Definition str (e : exn) : string :=
  match e with
  | EngineError msg => msg
  | AnalysisException msg => msg
  | IndexError => "list index out of range"
  | ValueError item => item
  end.

Inductive outcome (A : Type) : Type :=
| Returned (a : A)
| Raised (e : exn).

Arguments Returned {A} a.
Arguments Raised {A} e.

Definition obind {A B : Type} (o : outcome A) (k : A -> outcome B)
  : outcome B :=
  match o with
  | Returned a => k a
  | Raised e => Raised e
  end.

Definition omap {A B : Type} (f : A -> B) (o : outcome A) : outcome B :=
  match o with
  | Returned a => Returned (f a)
  | Raised e => Raised e
  end.

Notation "'do' x <- m ; k" := (obind m (fun x => k))
  (at level 60, x name, m at next level, right associativity).

(** ** The engine *)

(** What the engine decides for itself.  [arrange] is the order in which
    it meets the rows of a relation when it sorts or ranks them: rows
    with equal sort keys, and the partitions of a window, come out in
    that order.  [cast_long] is its cast of a string to a long, NULL
    when the string is no number.  [unresolved] is the message of the
    analysis error for a column reference that is missing or ambiguous
    among the given columns.  [to_pandas_rows] is the conversion of the
    collected rows to the cells of a pandas table (a long column holding
    a NULL becomes a column of floats, for one); it keeps the number of
    rows.  One engine value stands for the choices of one run: two runs
    of the same code may be two engines, and every property below holds
    for each. *)
Record Engine : Type := mkEngine {
  arrange : list Row -> list Row;
  arrange_perm : forall l, Permutation (arrange l) l;
  cast_long : string -> option Z;
  unresolved : string -> list string -> string;
  to_pandas_rows : list string -> list Row -> list Row;
  to_pandas_length :
    forall cols l,
      List.length (to_pandas_rows cols l) = List.length l
}.

(** [col == literal] under a filter: NULL on either side makes the
    comparison NULL, and the filter keeps only rows where it is true; a
    string against a number is cast to the number first. *)
Definition sql_eq (eng : Engine) (a b : value) : bool :=
  match a, b with
  | VNull, _ => false
  | _, VNull => false
  | VInt x, VInt y => Z.eqb x y
  | VStr x, VStr y => String.eqb x y
  | VStr x, VInt y =>
      match cast_long eng x with
      | Some z => Z.eqb z y
      | None => false
      end
  | VInt x, VStr y =>
      match cast_long eng y with
      | Some z => Z.eqb x z
      | None => false
      end
  end.

(** ** DataFrames *)

(** A DataFrame is a lazy handle: the schema is known as soon as the
    handle exists, the rows only when an action runs the plan, and the
    plan may fail then. *)
Record DataFrame : Type := mkDataFrame {
  columns : list string;
  plan : outcome (list Row)
}.

(** Every row of the frame has the frame's columns. *)
Definition wf_df (df : DataFrame) : Prop :=
  match plan df with
  | Returned rs => Forall (fun r => map fst r = columns df) rs
  | Raised _ => True
  end.

(** A column reference resolves when exactly one column has that name,
    letter case apart; a missing or ambiguous reference is an analysis
    error, raised when the transformation is built. *)
Definition resolve (eng : Engine) (name : string) (cols : list string)
  : outcome unit :=
  match filter (fun c => name_eqb c name) cols with
  | [_] => Returned tt
  | _ => Raised (AnalysisException (unresolved eng name cols))
  end.

(** [df.filter(col(name) == lit)] *)
Definition df_filter_eq (eng : Engine) (name : string) (lit : value)
  (df : DataFrame) : outcome DataFrame :=
  do _ <- resolve eng name (columns df);
  Returned {| columns := columns df;
              plan := omap (filter (fun r => sql_eq eng (cell name r) lit))
                           (plan df) |}.

Fixpoint insert_desc (key : Row -> value) (r : Row) (l : list Row)
  : list Row :=
  match l with
  | [] => [r]
  | y :: l' =>
      if value_leb (key y) (key r) then r :: y :: l'
      else y :: insert_desc key r l'
  end.

(** Descending sort on a key; rows with equal keys keep the order they
    come in. *)
Definition sort_desc (key : Row -> value) (l : list Row) : list Row :=
  fold_right (insert_desc key) [] l.

(** [df.orderBy(name, ascending=False)]: the rows as the engine meets
    them, sorted. *)
Definition df_orderBy_desc (eng : Engine) (name : string) (df : DataFrame)
  : outcome DataFrame :=
  do _ <- resolve eng name (columns df);
  Returned {| columns := columns df;
              plan := omap (fun rows => sort_desc (cell name)
                                          (arrange eng rows))
                           (plan df) |}.

(** [df.limit(n)] *)
Definition df_limit (n : nat) (df : DataFrame) : DataFrame :=
  {| columns := columns df; plan := omap (firstn n) (plan df) |}.

(** [df.collect()]: the action that runs the plan. *)
Definition collect (df : DataFrame) : outcome (list Row) := plan df.

(** Python [l[i]] on a list. *)
Definition py_index (l : list Row) (i : nat) : outcome Row :=
  match nth_error l i with
  | Some r => Returned r
  | None => Raised IndexError
  end.

(** [row[name]] on a [pyspark.sql.Row]. *)
Definition row_getitem (r : Row) (name : string) : outcome value :=
  match field name r with
  | Some v => Returned v
  | None => Raised (ValueError name)
  end.

(** The distinct values of a list, in order of first occurrence. *)
Fixpoint distinct (l : list value) : list value :=
  match l with
  | [] => []
  | x :: l' => x :: filter (fun y => negb (value_eqb x y)) (distinct l')
  end.

(** Numbers the rows of one sorted partition from [n] on. *)
Fixpoint number_rows (out : string) (n : Z) (l : list Row) : list Row :=
  match l with
  | [] => []
  | r :: l' => set_field out (VInt n) r :: number_rows out (n + 1) l'
  end.

(** The rows of one partition of a window. *)
Definition partition_of (part : string) (k : value) (rows : list Row)
  : list Row :=
  filter (fun r => value_eqb (cell part r) k) rows.

(** The window on rows already in the order the engine meets them: one
    partition per distinct value of [part] (NULLs form a partition of
    their own), each sorted on [ord] descending and numbered from 1. *)
Definition rank_partitions (out part ord : string) (rows : list Row)
  : list Row :=
  flat_map
    (fun k =>
       number_rows out 1
         (sort_desc (cell ord) (partition_of part k rows)))
    (distinct (map (cell part) rows)).

(** [row_number().over(Window.partitionBy(part).orderBy(col(ord).desc()))]
    on the rows of a plan. *)
Definition window_row_number (eng : Engine) (out part ord : string)
  (rows : list Row) : list Row :=
  rank_partitions out part ord (arrange eng rows).

Definition with_column_name (name : string) (cols : list string)
  : list string :=
  if has_column name cols
  then map (fun c => if name_eqb c name then name else c) cols
  else cols ++ [name].

(** [df.withColumn(out, row_number().over(Window.partitionBy(part)
    .orderBy(col(ord).desc())))] *)
Definition df_withColumn_row_number (eng : Engine) (out part ord : string)
  (df : DataFrame) : outcome DataFrame :=
  do _ <- resolve eng part (columns df);
  do _ <- resolve eng ord (columns df);
  Returned {| columns := with_column_name out (columns df);
              plan := omap (window_row_number eng out part ord)
                           (plan df) |}.

(** [df.drop(name)]; dropping a column that is not there is no error. *)
Definition df_drop (name : string) (df : DataFrame) : DataFrame :=
  {| columns := filter (fun c => negb (name_eqb c name)) (columns df);
     plan := omap (map (drop_field name)) (plan df) |}.

(** The session: [spark.sql(text)] returns a lazy handle or raises; the
    frames of a session are run by its engine. *)
Record SparkSession : Type := mkSession {
  sql : string -> outcome DataFrame;
  engine : Engine
}.

(** ** The in-memory table and the screen *)

Record PandasDF : Type := mkPandas {
  pd_columns : list string;
  pd_rows : list Row
}.

(** [df.toPandas()]: the action that materializes the plan. *)
Definition toPandas (eng : Engine) (df : DataFrame) : outcome PandasDF :=
  do rs <- plan df;
  Returned {| pd_columns := columns df;
              pd_rows := to_pandas_rows eng (columns df) rs |}.

(** [pandas_df.empty]: true when either axis has length zero. *)
Definition pd_empty (p : PandasDF) : bool :=
  match pd_columns p, pd_rows p with
  | [], _ => true
  | _, [] => true
  | _, _ => false
  end.

(** What the UI toolkit has been asked to show, oldest first. *)
Inductive ui_event : Type :=
| StError (msg : string)
| StInfo (msg : string)
| Progress (pct : Z)
| StDataframe (df : PandasDF).

(** ** Python function bodies: mutable locals, the screen, exceptions *)

Record world (L : Type) : Type := mkWorld {
  locals : L;
  screen : list ui_event
}.

Arguments mkWorld {L} _ _.
Arguments locals {L} _.
Arguments screen {L} _.

(** A statement sequence running in a frame with locals of type [L]. *)
Definition Py (L A : Type) : Type := world L -> outcome A * world L.

(** A function call as its caller sees it. *)
Definition Fn (A : Type) : Type := list ui_event -> outcome A * list ui_event.

Definition ret {L A : Type} (a : A) : Py L A :=
  fun w => (Returned a, w).

Definition bind {L A B : Type} (m : Py L A) (k : A -> Py L B) : Py L B :=
  fun w =>
    match m w with
    | (Returned a, w') => k a w'
    | (Raised e, w') => (Raised e, w')
    end.

Definition lift {L A : Type} (o : outcome A) : Py L A :=
  fun w => (o, w).

(** [try: body except Exception as e: handler e]; what the body did to
    the locals and the screen before it raised stays done. *)
Definition try_except {L A : Type} (body : Py L A) (handler : exn -> Py L A)
  : Py L A :=
  fun w =>
    match body w with
    | (Returned a, w') => (Returned a, w')
    | (Raised e, w') => handler e w'
    end.

Definition get_local {L : Type} : Py L L :=
  fun w => (Returned (locals w), w).

Definition set_local {L : Type} (v : L) : Py L unit :=
  fun w => (Returned tt, mkWorld v (screen w)).

Definition emit {L : Type} (ev : ui_event) : Py L unit :=
  fun w => (Returned tt, mkWorld (locals w) (screen w ++ [ev])).

(** Entering a function with its initial locals, and calling one. *)
Definition enter {L A : Type} (init : L) (body : Py L A) : Fn A :=
  fun ui => let (r, w) := body (mkWorld init ui) in (r, screen w).

Definition call {L A : Type} (f : Fn A) : Py L A :=
  fun w => let (r, ui) := f (screen w) in (r, mkWorld (locals w) ui).

Notation "x <- m ;; k" := (bind m (fun x => k))
  (at level 61, m at next level, right associativity).
Notation "m ;; k" := (bind m (fun _ => k))
  (at level 61, right associativity).

Definition st_error {L : Type} (msg : string) : Py L unit :=
  emit (StError msg).

Definition st_info {L : Type} (msg : string) : Py L unit :=
  emit (StInfo msg).

Definition progress_bar_progress {L : Type} (pct : Z) : Py L unit :=
  emit (Progress pct).

Definition st_dataframe {L : Type} (df : PandasDF) : Py L unit :=
  emit (StDataframe df).

(** ** The functions of app.py *)

(** The f-string of the history query. *)
Definition history_query (iceberg_catalog iceberg_database table_name : string)
  : string :=
  "SELECT * FROM " ++ iceberg_catalog ++ "." ++ iceberg_database ++ "."
    ++ table_name ++ ".history".

(** Lines 30-34 of [filter_latest_data]: the history query, the descending
    sort limited to one row, and the first collected row's [snapshot_id]. *)
Definition latest_snapshot_id_of
  (iceberg_catalog iceberg_database table_name : string)
  (spark : SparkSession) : outcome value :=
  do history_df <-
     sql spark (history_query iceberg_catalog iceberg_database table_name);
  do ordered <- df_orderBy_desc (engine spark) "timestamp" history_df;
  let latest_snapshot := df_limit 1 ordered in
  do collected <- collect latest_snapshot;
  do first_row <- py_index collected 0;
  row_getitem first_row "snapshot_id".

(** Lines 41-44: the window, the rank filter and the drop of the rank. *)
Definition deduplicate (eng : Engine) (df : DataFrame) : outcome DataFrame :=
  do numbered <-
     df_withColumn_row_number eng "row_number" "id" "timestamp" df;
  do ranked <- df_filter_eq eng "row_number" (VInt 1) numbered;
  Returned (df_drop "row_number" ranked).

(** The body of [filter_latest_data]; its one mutable local is the
    parameter [iceberg_df], rebound at lines 37 and 42 and read by the
    handler at line 49.  The frame is a frame of the session [spark]. *)
Definition filter_latest_data_body
  (iceberg_catalog iceberg_database table_name : string)
  (spark : SparkSession) : Py DataFrame DataFrame :=
  try_except
    (latest_snapshot_id <-
       lift (latest_snapshot_id_of iceberg_catalog iceberg_database
               table_name spark) ;;
     iceberg_df <- get_local ;;
     filtered <- lift (df_filter_eq (engine spark) "snapshot_id"
                         latest_snapshot_id iceberg_df) ;;
     set_local filtered ;;
     iceberg_df <- get_local ;;
     deduplicated <- lift (deduplicate (engine spark) iceberg_df) ;;
     set_local deduplicated ;;
     iceberg_df <- get_local ;;
     ret iceberg_df)
    (fun e =>
       st_error ("Error fetching snapshot data: " ++ str e) ;;
       iceberg_df <- get_local ;;
       ret iceberg_df).

Definition filter_latest_data (iceberg_df : DataFrame)
  (iceberg_catalog iceberg_database table_name : string)
  (spark : SparkSession) : Fn DataFrame :=
  enter iceberg_df
    (filter_latest_data_body iceberg_catalog iceberg_database table_name
       spark).

(** What [run_query] returns: the DataFrame or the error text. *)
Inductive query_result : Type :=
| ResultFrame (df : DataFrame)
| ResultText (msg : string).

Definition run_query (spark : SparkSession) (query : string)
  : Fn query_result :=
  enter tt
    (try_except
       (df <- lift (sql spark query) ;;
        ret (ResultFrame df))
       (fun e => ret (ResultText (str e)))).

(** [execute_query]; entering and leaving the [with progress_bar:] block
    shows nothing by itself. *)
Definition execute_query (spark : SparkSession) (query : string)
  : Fn (option PandasDF) :=
  enter tt
    (progress_bar_progress 0 ;;
     try_except
       (result <- call (run_query spark query) ;;
        progress_bar_progress 50 ;;
        match result with
        | ResultText msg =>
            st_error ("Error running query: " ++ msg) ;;
            ret None
        | ResultFrame df =>
            pandas_df <- lift (toPandas (engine spark) df) ;;
            if pd_empty pandas_df
            then st_info "No results returned for the query." ;; ret None
            else progress_bar_progress 100 ;; ret (Some pandas_df)
        end)
       (fun e =>
          st_error ("Error executing the query: " ++ str e) ;;
          ret None)).

Definition display_results (df : option PandasDF) : Fn unit :=
  enter tt
    (match df with
     | Some d => st_dataframe d
     | None => ret tt
     end).

(** ** Concrete engines and tables used as examples below *)

Fixpoint digits_value (acc : Z) (s : string) : option Z :=
  match s with
  | EmptyString => Some acc
  | String c s' =>
      let n := N_of_ascii c in
      if ((48 <=? n) && (n <=? 57))%N
      then digits_value (10 * acc + Z.of_N (n - 48)) s'
      else None
  end.

(** An engine that meets the rows in the order they are given, casts
    strings of digits, and converts cells as they are. *)
Definition plain_engine : Engine :=
  {| arrange := fun l => l;
     arrange_perm := fun l => Permutation_refl l;
     cast_long := fun s =>
       match s with
       | EmptyString => None
       | _ => digits_value 0 s
       end;
     unresolved := fun name _ =>
       ("A column or function parameter with name " ++ name
          ++ " cannot be resolved")%string;
     to_pandas_rows := fun _ l => l;
     to_pandas_length := fun _ l => eq_refl |}.

(** An engine that meets the rows in the opposite order. *)
Definition reversing_engine : Engine :=
  {| arrange := fun l => rev l;
     arrange_perm := fun l => Permutation_sym (Permutation_rev l);
     cast_long := cast_long plain_engine;
     unresolved := unresolved plain_engine;
     to_pandas_rows := fun _ l => l;
     to_pandas_length := fun _ l => eq_refl |}.

Definition snapshot_row (snapshot_id ts : Z) : Row :=
  [("snapshot_id", VInt snapshot_id); ("timestamp", VInt ts)].

Definition data_row (id : string) (ts : Z) (v : string) (snapshot_id : Z)
  : Row :=
  [("id", VStr id); ("timestamp", VInt ts); ("v", VStr v);
   ("snapshot_id", VInt snapshot_id)].

(** The history of the scenario of section 8 of the specification. *)
Definition scenario_history : DataFrame :=
  {| columns := ["snapshot_id"; "timestamp"];
     plan := Returned [snapshot_row 1 100; snapshot_row 2 200] |}.

(** Its data rows, all tagged with snapshot 2. *)
Definition scenario_data : DataFrame :=
  {| columns := ["id"; "timestamp"; "v"; "snapshot_id"];
     plan := Returned [data_row "a" 10 "x" 2; data_row "a" 20 "y" 2;
                       data_row "b" 5 "z" 2] |}.

(** A session that knows one table, [ice.db.events], with a given
    history relation. *)
Definition session_with_history (eng : Engine) (history : DataFrame)
  : SparkSession :=
  {| sql := fun text =>
       if String.eqb text "SELECT * FROM ice.db.events.history"
       then Returned history
       else Raised (EngineError "Table or view not found");
     engine := eng |}.

(** A session that answers every statement with the same frame. *)
Definition session_answering (eng : Engine) (df : DataFrame)
  : SparkSession :=
  {| sql := fun _ => Returned df; engine := eng |}.

(** A session in which every statement fails. *)
Definition failing_session (eng : Engine) : SparkSession :=
  {| sql := fun _ => Raised (EngineError "Table or view not found");
     engine := eng |}.

(** Data of two snapshots; the older snapshot holds the greater
    timestamp for [id] a. *)
Definition two_snapshot_data : DataFrame :=
  {| columns := ["id"; "timestamp"; "v"; "snapshot_id"];
     plan := Returned [data_row "a" 30 "w" 1; data_row "a" 10 "x" 2;
                       data_row "a" 20 "y" 2; data_row "b" 5 "z" 2] |}.

(** Data of two snapshots without an [id] column. *)
Definition data_without_id : DataFrame :=
  {| columns := ["timestamp"; "v"; "snapshot_id"];
     plan := Returned
               [[("timestamp", VInt 10); ("v", VStr "x");
                 ("snapshot_id", VInt 1)];
                [("timestamp", VInt 20); ("v", VStr "y");
                 ("snapshot_id", VInt 2)]] |}.

(** Data that already has a column called [row_number]. *)
Definition data_with_rank_column : DataFrame :=
  {| columns := ["id"; "timestamp"; "snapshot_id"; "row_number"];
     plan := Returned
               [[("id", VStr "a"); ("timestamp", VInt 10);
                 ("snapshot_id", VInt 2); ("row_number", VInt 7)]] |}.

(** Data with two columns called [id], as a join leaves them. *)
Definition data_with_two_id_columns : DataFrame :=
  {| columns := ["id"; "timestamp"; "snapshot_id"; "id"];
     plan := Returned
               [[("id", VStr "a"); ("timestamp", VInt 10);
                 ("snapshot_id", VInt 2); ("id", VStr "a")];
                [("id", VStr "a"); ("timestamp", VInt 20);
                 ("snapshot_id", VInt 2); ("id", VStr "a")]] |}.

(** A frame with a schema and no rows. *)
Definition empty_table : DataFrame :=
  {| columns := ["id"; "v"]; plan := Returned [] |}.

(** A frame whose plan fails when an action runs it. *)
Definition broken_table : DataFrame :=
  {| columns := ["id"; "v"];
     plan := Raised (EngineError "Job aborted") |}.

(** A history relation without rows. *)
Definition empty_history : DataFrame :=
  {| columns := ["snapshot_id"; "timestamp"]; plan := Returned [] |}.

(** A history relation with one entry, as the table format exposes it:
    its commit time is in a column of another name. *)
Definition history_made_current_at : DataFrame :=
  {| columns := ["made_current_at"; "snapshot_id"];
     plan := Returned [[("made_current_at", VInt 200);
                        ("snapshot_id", VInt 2)]] |}.

(** A history whose two snapshots were committed at the same time. *)
Definition tied_history : DataFrame :=
  {| columns := ["snapshot_id"; "timestamp"];
     plan := Returned [snapshot_row 1 100; snapshot_row 2 100] |}.

(** Data whose plan fails when it is run. *)
Definition broken_data : DataFrame :=
  {| columns := ["id"; "timestamp"; "v"; "snapshot_id"];
     plan := Raised (EngineError "Job aborted") |}.

(** ** Notions the statements below are written in *)

(** The percentages among some events, in order. *)
Fixpoint progress_of (events : list ui_event) : list Z :=
  match events with
  | [] => []
  | Progress pct :: rest => pct :: progress_of rest
  | _ :: rest => progress_of rest
  end.

(** A row tagged with snapshot [s]: its [snapshot_id] column equals [s]
    for the filter of line 37. *)
Definition tagged (eng : Engine) (s : value) (r : Row) : Prop :=
  sql_eq eng (cell "snapshot_id" r) s = true.

(** The rank filter of line 43 on one row. *)
Definition rank_one (eng : Engine) (out : string) (r : Row) : bool :=
  sql_eq eng (cell out r) (VInt 1).

(** The banner of line 48. *)
Definition fetch_error (e : exn) : ui_event :=
  StError ("Error fetching snapshot data: " ++ str e).

(** A kept row after lines 42-44: ranked first, then stripped of the rank. *)
Definition strip_rank (r : Row) : Row :=
  drop_field "row_number" (set_field "row_number" (VInt 1) r).

(** The rows lines 41-44 keep of rows in the order the engine meets
    them: per distinct [id], the first row of the partition sorted on
    [timestamp] descending. *)
Definition kept_rows (rows : list Row) : list Row :=
  flat_map
    (fun k =>
       map strip_rank
         (firstn 1 (sort_desc (cell "timestamp") (partition_of "id" k rows))))
    (distinct (map (cell "id") rows)).

(** [a] may stand before [b] in a list sorted on [key] descending. *)
Definition above (key : Row -> value) (a b : Row) : Prop :=
  value_leb (key b) (key a) = true.

(** The id and v fields of a row, as the scenario lists them. *)
Definition id_and_v (r : Row) : Row :=
  [("id", cell "id" r); ("v", cell "v" r)].

(** ** Session set-up and the page: [initialize_spark] and [main] *)

(** The events other than progress milestones: tables, notices, errors. *)
Definition is_outcome (ev : ui_event) : bool :=
  match ev with
  | Progress _ => false
  | _ => true
  end.

Definition outcomes_of (events : list ui_event) : list ui_event :=
  filter is_outcome events.

Fixpoint ends_with_sep (s : string) : bool :=
  match s with
  | EmptyString => false
  | String c rest =>
      match rest with
      | EmptyString => Ascii.eqb c "/"
      | String _ _ => ends_with_sep rest
      end
  end.

(** [os.path.join(a, b)] on a POSIX host. *)
Definition os_path_join (a b : string) : string :=
  if String.prefix "/" b then b
  else if String.eqb a "" || ends_with_sep a then a ++ b
  else a ++ "/" ++ b.

(** The options of a session builder: a dictionary from keys to values. *)
Definition options : Type := list (string * string).

Definition has_option (key : string) (o : options) : bool :=
  existsb (fun p => String.eqb (fst p) key) o.

(** [builder.config(key, value)]: assignment in the dictionary. *)
Definition config (key val : string) (o : options) : options :=
  if has_option key o
  then map (fun p => if String.eqb (fst p) key then (fst p, val) else p) o
  else o ++ [(key, val)].

Fixpoint option_of (key : string) (o : options) : option string :=
  match o with
  | [] => None
  | (k, v) :: o' => if String.eqb k key then Some v else option_of key o'
  end.

(** The settings of lines 14-21, in the order of the calls; [appName] is
    the setting [spark.app.name]. *)
Definition builder_settings
  (script_dir gcs_bucket_url gcp_access_key iceberg_catalog : string)
  : list (string * string) :=
  let iceberg_jar_path :=
    os_path_join script_dir "iceberg-spark-runtime-3.5_2.12-1.7.0.jar" in
  let gcs_connector_jar_path :=
    os_path_join script_dir "gcs-connector-hadoop2-latest.jar" in
  [("spark.app.name", "Iceberg Query Engine");
   (("spark.sql.catalog." ++ iceberg_catalog)%string,
    "org.apache.iceberg.spark.SparkCatalog");
   (("spark.sql.catalog." ++ iceberg_catalog ++ ".type")%string, "hadoop");
   (("spark.sql.catalog." ++ iceberg_catalog ++ ".warehouse")%string,
    ("gs://" ++ gcs_bucket_url ++ "/warehouse")%string);
   ("spark.hadoop.fs.gs.impl",
    "com.google.cloud.hadoop.fs.gcs.GoogleHadoopFileSystem");
   ("spark.hadoop.fs.gs.auth.service.account.json.keyfile", gcp_access_key);
   ("spark.jars",
    (iceberg_jar_path ++ "," ++ gcs_connector_jar_path)%string)].

Definition builder_options
  (script_dir gcs_bucket_url gcp_access_key iceberg_catalog : string)
  : options :=
  fold_left (fun o kv => config (fst kv) (snd kv) o)
    (builder_settings script_dir gcs_bucket_url gcp_access_key
       iceberg_catalog)
    [].

(** What the page runs on: the directory of the script, the name the
    operating system gives the temporary file, and the engine behind
    [getOrCreate]. *)
Record host : Type := mkHost {
  script_dir : string;
  temp_name : outcome string;
  getOrCreate : options -> outcome SparkSession
}.

(** What the page has done outside the screen of results: the widgets it
    drew, the files it wrote, the sessions it asked for and how often it
    stopped one. *)
Record outside : Type := mkOutside {
  drawn : list string;
  written : list (string * string);
  opened : list options;
  stopped : nat
}.

Definition draw (label : string) : Py outside unit :=
  o <- get_local ;;
  set_local (mkOutside (drawn o ++ [label]) (written o) (opened o)
               (stopped o)).

Definition write_file (path content : string) : Py outside unit :=
  o <- get_local ;;
  set_local (mkOutside (drawn o) (written o ++ [(path, content)]) (opened o)
               (stopped o)).

Definition spark_stop : Py outside unit :=
  o <- get_local ;;
  set_local (mkOutside (drawn o) (written o) (opened o) (S (stopped o))).

Definition initialize_spark (h : host)
  (gcs_bucket_url gcp_access_key iceberg_catalog : string)
  : Py outside SparkSession :=
  let opts := builder_options (script_dir h) gcs_bucket_url gcp_access_key
                iceberg_catalog in
  o <- get_local ;;
  set_local (mkOutside (drawn o) (written o) (opened o ++ [opts])
               (stopped o)) ;;
  lift (getOrCreate h opts).

(** What the widgets hand back on one run of the script. *)
Record form : Type := mkForm {
  typed_catalog : string;
  typed_bucket : string;
  uploaded_key : option string;
  typed_query : string;
  run_clicked : bool
}.

(** The test of line 105. *)
Definition inputs_given (f : form) : bool :=
  negb (String.eqb (typed_bucket f) "")
  && match uploaded_key f with Some _ => true | None => false end
  && negb (String.eqb (typed_catalog f) "").

Definition main (h : host) (f : form) : Py outside unit :=
  draw "Iceberg Query Engine" ;;
  draw "Enter your Iceberg catalog name:" ;;
  let iceberg_catalog := typed_catalog f in
  draw "Enter your GCS bucket URL:" ;;
  let gcs_bucket_url := typed_bucket f in
  draw "Upload your GCP service account JSON key:" ;;
  match uploaded_key f with
  | Some key_bytes =>
      if inputs_given f
      then
        gcp_access_key_path <- lift (temp_name h) ;;
        write_file gcp_access_key_path key_bytes ;;
        spark <- initialize_spark h gcs_bucket_url gcp_access_key_path
                   iceberg_catalog ;;
        draw "Enter your SQL Query:" ;;
        let query := typed_query f in
        draw "Run Query" ;;
        if run_clicked f
        then
          progress_bar_progress 0 ;;
          pandas_df <- call (execute_query spark query) ;;
          call (display_results pandas_df) ;;
          spark_stop
        else ret tt
      else ret tt
  | None => ret tt
  end.

(** A host on which the temporary file and the session are granted. *)
Definition granting_host (spark : SparkSession) : host :=
  {| script_dir := "/srv/app";
     temp_name := Returned "/tmp/tmpk3y";
     getOrCreate := fun _ => Returned spark |}.

(** A host whose engine cannot be started. *)
Definition refusing_host : host :=
  {| script_dir := "/srv/app";
     temp_name := Returned "/tmp/tmpk3y";
     getOrCreate := fun _ => Raised (EngineError "Java gateway exited") |}.

Definition filled_form (clicked : bool) : form :=
  {| typed_catalog := "ice";
     typed_bucket := "iceberg-storage";
     uploaded_key := Some "{}";
     typed_query := "SELECT * FROM ice.db.events";
     run_clicked := clicked |}.

Definition nothing_outside : outside :=
  {| drawn := []; written := []; opened := []; stopped := 0 |}.

(** * Properties *)

(** ** The ordering of cells *)

Section CellOrder.

Lemma string_compare_refl (s : string) : String.compare s s = Eq.
Proof.
  induction s as [| c s IH]; simpl; [reflexivity |].
  unfold Ascii.compare. now rewrite N.compare_refl.
Qed.

Lemma string_leb_trans (a b c : string) :
  String.leb a b = true -> String.leb b c = true -> String.leb a c = true.
Proof.
  unfold String.leb. revert b c.
  induction a as [| x a IH]; intros [| y b] [| z c]; simpl;
    try congruence.
  unfold Ascii.compare.
  destruct (N.compare_spec (N_of_ascii x) (N_of_ascii y)) as [E1 | L1 | G1];
    destruct (N.compare_spec (N_of_ascii y) (N_of_ascii z))
      as [E2 | L2 | G2];
    try congruence; intros H1 H2.
  - rewrite E1, E2, N.compare_refl. now apply (IH b c).
  - rewrite E1. now rewrite (proj2 (N.compare_lt_iff _ _) L2).
  - rewrite <- E2. now rewrite (proj2 (N.compare_lt_iff _ _) L1).
  - assert (L : (N_of_ascii x < N_of_ascii z)%N) by lia.
    now rewrite (proj2 (N.compare_lt_iff _ _) L).
Qed.

Lemma value_leb_refl (a : value) : value_leb a a = true.
Proof.
  destruct a as [| z | s]; simpl; [reflexivity | apply Z.leb_refl |].
  unfold String.leb. now rewrite string_compare_refl.
Qed.

Lemma value_leb_total (a b : value) :
  value_leb a b = true \/ value_leb b a = true.
Proof.
  destruct a as [| x | x], b as [| y | y]; simpl; auto.
  - destruct (Z.leb_spec x y); [now left | right].
    apply Z.leb_le. lia.
  - apply String.leb_total.
Qed.

Lemma value_leb_trans (a b c : value) :
  value_leb a b = true -> value_leb b c = true -> value_leb a c = true.
Proof.
  destruct a as [| x | x], b as [| y | y], c as [| z | z]; simpl;
    try congruence.
  - rewrite !Z.leb_le. lia.
  - apply string_leb_trans.
Qed.

Lemma value_eqb_eq (a b : value) : value_eqb a b = true <-> a = b.
Proof.
  destruct a as [| x | x], b as [| y | y]; simpl;
    try (split; congruence).
  - rewrite Z.eqb_eq. split; congruence.
  - rewrite String.eqb_eq. split; congruence.
Qed.

Lemma value_eqb_refl (a : value) : value_eqb a a = true.
Proof. now apply value_eqb_eq. Qed.

End CellOrder.

(** ** Descending sort *)

Section SortDesc.

Variable key : Row -> value.

Lemma insert_desc_perm (r : Row) (l : list Row) :
  Permutation (insert_desc key r l) (r :: l).
Proof.
  induction l as [| y l IH]; simpl; [reflexivity |].
  destruct (value_leb (key y) (key r)); [reflexivity |].
  rewrite IH. apply perm_swap.
Qed.

Lemma sort_desc_perm (l : list Row) : Permutation (sort_desc key l) l.
Proof.
  induction l as [| r l IH]; simpl; [reflexivity |].
  rewrite insert_desc_perm. now constructor.
Qed.

Lemma sort_desc_In (l : list Row) (r : Row) :
  In r (sort_desc key l) <-> In r l.
Proof.
  split; apply Permutation_in;
    [apply sort_desc_perm | symmetry; apply sort_desc_perm].
Qed.

Lemma insert_desc_sorted (r : Row) (l : list Row) :
  StronglySorted (above key) l -> StronglySorted (above key) (insert_desc key r l).
Proof.
  induction 1 as [| y l Hs IH Hall]; simpl.
  - repeat constructor.
  - destruct (value_leb (key y) (key r)) eqn:E.
    + constructor; [now constructor |].
      constructor; [exact E |].
      eapply Forall_impl; [| exact Hall].
      intros z Hz. unfold above in *.
      now apply value_leb_trans with (key y).
    + constructor; [exact IH |].
      eapply Permutation_Forall.
      * symmetry. apply insert_desc_perm.
      * constructor; [| exact Hall].
        unfold above.
        destruct (value_leb_total (key r) (key y)); congruence.
Qed.

Lemma sort_desc_sorted (l : list Row) :
  StronglySorted (above key) (sort_desc key l).
Proof.
  induction l as [| r l IH]; simpl;
    [constructor | now apply insert_desc_sorted].
Qed.

(** The first row of the sorted list has the greatest key. *)
Lemma sort_desc_head_max (l : list Row) (h : Row) (t : list Row) :
  sort_desc key l = h :: t ->
  forall r, In r l -> value_leb (key r) (key h) = true.
Proof.
  intros E r Hr.
  apply sort_desc_In in Hr. rewrite E in Hr.
  pose proof (sort_desc_sorted l) as Hs. rewrite E in Hs.
  inversion Hs as [| ? ? _ Hall]; subst.
  destruct Hr as [<- | Hr]; [apply value_leb_refl |].
  rewrite Forall_forall in Hall. now apply Hall.
Qed.

Lemma sort_desc_nonempty (l : list Row) :
  l <> [] -> exists h t, sort_desc key l = h :: t.
Proof.
  intros Hne. destruct (sort_desc key l) as [| h t] eqn:E; [| eauto].
  destruct l as [| r l]; [congruence |].
  assert (Hin : In r (sort_desc key (r :: l)))
    by (apply sort_desc_In; now left).
  rewrite E in Hin. destruct Hin.
Qed.

Lemma sort_desc_head_In (l : list Row) (h : Row) (t : list Row) :
  sort_desc key l = h :: t -> In h l.
Proof.
  intros E. apply sort_desc_In. rewrite E. now left.
Qed.

End SortDesc.

(** ** Column names *)

Lemma name_eqb_refl (a : string) : name_eqb a a = true.
Proof. unfold name_eqb. apply String.eqb_refl. Qed.

Lemma name_eqb_sym (a b : string) : name_eqb a b = name_eqb b a.
Proof. unfold name_eqb. apply String.eqb_sym. Qed.

(** Names that match stand for one another. *)
Lemma name_eqb_same (a b c : string) :
  name_eqb a b = true -> name_eqb a c = name_eqb b c.
Proof.
  unfold name_eqb. intros H. apply String.eqb_eq in H. now rewrite H.
Qed.

Lemma existsb_map_fst (f : string -> bool) (r : Row) :
  existsb f (map fst r) = existsb (fun p => f (fst p)) r.
Proof.
  induction r as [| p r IH]; simpl; [reflexivity | now rewrite IH].
Qed.

(** ** Fields of a row under [withColumn] and [drop] *)

Section Fields.

Variables (name : string) (v : value).

Lemma has_field_false_col_field (r : Row) :
  has_field name r = false -> col_field name r = None.
Proof.
  induction r as [| [n x] r IH]; simpl; [reflexivity |].
  destruct (name_eqb n name); simpl; [discriminate | exact IH].
Qed.

Lemma col_field_set_other (other : string) (r : Row) :
  name_eqb name other = false ->
  col_field other (set_field name v r) = col_field other r.
Proof.
  intros Hne. unfold set_field. destruct (has_field name r).
  - induction r as [| [n x] r IH]; simpl; [reflexivity |].
    destruct (name_eqb n name) eqn:E; simpl.
    + rewrite Hne. rewrite (name_eqb_same _ _ other E), Hne. exact IH.
    + destruct (name_eqb n other); [reflexivity | exact IH].
  - induction r as [| [n x] r IH]; simpl.
    + now rewrite Hne.
    + destruct (name_eqb n other); [reflexivity | exact IH].
Qed.

Lemma col_field_set_same (r : Row) :
  col_field name (set_field name v r) = Some v.
Proof.
  unfold set_field. destruct (has_field name r) eqn:E.
  - induction r as [| [n x] r IH]; simpl in *; [discriminate |].
    destruct (name_eqb n name) eqn:En; simpl in *.
    + now rewrite name_eqb_refl.
    + rewrite En. now apply IH.
  - induction r as [| [n x] r IH]; simpl in *.
    + now rewrite name_eqb_refl.
    + destruct (name_eqb n name); simpl in *; [discriminate | auto].
Qed.

Lemma col_field_drop_other (other : string) (r : Row) :
  name_eqb name other = false ->
  col_field other (drop_field name r) = col_field other r.
Proof.
  intros Hne. unfold drop_field.
  induction r as [| [n x] r IH]; simpl; [reflexivity |].
  destruct (name_eqb n name) eqn:E; simpl.
  - rewrite (name_eqb_same _ _ other E), Hne. exact IH.
  - destruct (name_eqb n other); [reflexivity | exact IH].
Qed.

Lemma drop_field_absent (r : Row) :
  has_field name r = false -> drop_field name r = r.
Proof.
  unfold drop_field, has_field.
  induction r as [| [n x] r IH]; simpl; [reflexivity |].
  destruct (name_eqb n name); simpl; [discriminate |].
  intros H. now rewrite IH.
Qed.

(** Adding a column that was not there and dropping it again gives the
    row back. *)
Lemma drop_set_absent (r : Row) :
  has_field name r = false -> drop_field name (set_field name v r) = r.
Proof.
  intros H. unfold set_field. rewrite H. unfold drop_field.
  rewrite filter_app. simpl. rewrite name_eqb_refl. simpl.
  rewrite app_nil_r. now apply drop_field_absent.
Qed.

End Fields.

(** What lines 42-44 do to a row that is kept: rank it, then strip the
    rank.  Columns other than the rank are untouched. *)
Lemma cell_strip_rank (other : string) (r : Row) :
  name_eqb "row_number" other = false ->
  cell other (strip_rank r) = cell other r.
Proof.
  intros H. unfold cell, strip_rank.
  rewrite col_field_drop_other by exact H.
  now rewrite col_field_set_other by exact H.
Qed.

(** ** Ranking a partition *)

Lemma rank_one_set (eng : Engine) (out : string) (n : Z) (r : Row) :
  rank_one eng out (set_field out (VInt n) r) = Z.eqb n 1.
Proof.
  unfold rank_one, cell. now rewrite col_field_set_same.
Qed.

Lemma number_rows_later (eng : Engine) (out : string) (l : list Row) :
  forall n, (1 < n)%Z ->
    filter (rank_one eng out) (number_rows out n l) = [].
Proof.
  induction l as [| r l IH]; intros n Hn; simpl; [reflexivity |].
  rewrite rank_one_set.
  destruct (Z.eqb_spec n 1); [lia |].
  apply IH. lia.
Qed.

(** Only the first row of a numbered partition has rank 1. *)
Lemma number_rows_first (eng : Engine) (out : string) (l : list Row) :
  filter (rank_one eng out) (number_rows out 1 l)
  = map (set_field out (VInt 1)) (firstn 1 l).
Proof.
  destruct l as [| r l]; simpl; [reflexivity |].
  rewrite rank_one_set. simpl.
  now rewrite number_rows_later by lia.
Qed.

(** ** Partitions of the window *)

Lemma distinct_In (l : list value) (x : value) :
  In x (distinct l) <-> In x l.
Proof.
  induction l as [| y l IH]; simpl; [tauto |].
  rewrite filter_In, IH.
  split.
  - intros [H | [H _]]; auto.
  - intros [H | H]; [now left |].
    destruct (value_eqb y x) eqn:E.
    + left. now apply value_eqb_eq.
    + right. now split.
Qed.

Lemma distinct_NoDup (l : list value) : NoDup (distinct l).
Proof.
  induction l as [| y l IH]; simpl; constructor.
  - rewrite filter_In. intros [_ H].
    now rewrite value_eqb_refl in H.
  - now apply NoDup_filter.
Qed.

Lemma partition_of_In (part : string) (k : value) (rows : list Row)
  (r : Row) :
  In r (partition_of part k rows) <-> In r rows /\ cell part r = k.
Proof.
  unfold partition_of. now rewrite filter_In, value_eqb_eq.
Qed.

(** The head of a sorted partition: a row of the input with that key and
    the greatest [ord] among the rows with that key. *)
Lemma partition_head (part ord : string) (k : value) (rows : list Row)
  (h : Row) (t : list Row) :
  sort_desc (cell ord) (partition_of part k rows) = h :: t ->
  In h rows /\ cell part h = k /\
  forall r, In r rows -> cell part r = k ->
            value_leb (cell ord r) (cell ord h) = true.
Proof.
  intros E.
  pose proof (sort_desc_head_In _ _ _ _ E) as Hh.
  apply partition_of_In in Hh. destruct Hh as [Hin Hk].
  repeat split; auto.
  intros r Hr Hrk.
  apply (sort_desc_head_max _ _ _ _ E).
  now apply partition_of_In.
Qed.

(** ** Deduplication (lines 41-44) *)

Lemma ranked_then_stripped (eng : Engine) (rows : list Row) :
  map (drop_field "row_number")
    (filter (rank_one eng "row_number")
       (rank_partitions "row_number" "id" "timestamp" rows))
  = kept_rows rows.
Proof.
  unfold rank_partitions, kept_rows.
  induction (distinct (map (cell "id") rows)) as [| k ks IH];
    cbn [flat_map]; [reflexivity |].
  rewrite filter_app, map_app, IH, number_rows_first, map_map.
  reflexivity.
Qed.

Lemma kept_rows_In (rows : list Row) (r : Row) :
  In r (kept_rows rows) ->
  exists k h t,
    sort_desc (cell "timestamp") (partition_of "id" k rows) = h :: t
    /\ r = strip_rank h.
Proof.
  unfold kept_rows. rewrite in_flat_map.
  intros [k [_ Hin]].
  destruct (sort_desc (cell "timestamp") (partition_of "id" k rows))
    as [| h t] eqn:E; simpl in Hin; [destruct Hin |].
  destruct Hin as [<- | []]. now exists k, h, t.
Qed.

(** The keys of the kept rows are the distinct keys of the rows, each
    once. *)
Lemma kept_rows_ids (rows : list Row) :
  map (cell "id") (kept_rows rows) = distinct (map (cell "id") rows).
Proof.
  unfold kept_rows.
  assert (H : forall k, In k (distinct (map (cell "id") rows)) ->
                        In k (map (cell "id") rows))
    by (intros k; apply distinct_In).
  induction (distinct (map (cell "id") rows)) as [| k ks IH];
    cbn [flat_map]; [reflexivity |].
  rewrite map_app, IH by (intros; apply H; now right).
  change (k :: ks) with ([k] ++ ks). f_equal.
  assert (Hk : In k (map (cell "id") rows)) by (apply H; now left).
  apply in_map_iff in Hk. destruct Hk as [r0 [Hr0 Hin0]].
  destruct (sort_desc_nonempty (cell "timestamp")
              (partition_of "id" k rows)) as [h [t E]].
  { intros Hnil.
    assert (Hp : In r0 (partition_of "id" k rows))
      by now apply partition_of_In.
    rewrite Hnil in Hp. destruct Hp. }
  rewrite E. cbn [firstn map].
  apply partition_head in E. destruct E as [_ [Hk _]].
  rewrite cell_strip_rank by reflexivity.
  now rewrite Hk.
Qed.

Lemma kept_rows_NoDup (rows : list Row) :
  NoDup (map (cell "id") (kept_rows rows)).
Proof. rewrite kept_rows_ids. apply distinct_NoDup. Qed.

(** Where a kept row comes from: a row of the list, with the greatest
    timestamp among the rows of its key. *)
Lemma kept_row_source (rows : list Row) (r : Row) :
  In r (kept_rows rows) ->
  exists h, In h rows /\ r = strip_rank h /\
    forall r', In r' rows -> cell "id" r' = cell "id" h ->
      value_leb (cell "timestamp" r') (cell "timestamp" h) = true.
Proof.
  intros Hr. apply kept_rows_In in Hr. destruct Hr as [k [h [t [E ->]]]].
  apply partition_head in E. destruct E as [Hin [Hk Hmax]].
  exists h. repeat split; auto.
  intros r' Hr' Heq. apply Hmax; congruence.
Qed.

(** Stripping the rank of a row that never had a rank column gives the
    row back, so the kept rows are rows of the list. *)
Lemma kept_rows_incl (l : list Row) :
  (forall r, In r l -> has_field "row_number" r = false) ->
  incl (kept_rows l) l.
Proof.
  intros Hno r Hr. apply kept_row_source in Hr.
  destruct Hr as [h [Hh [-> _]]].
  unfold strip_rank. now rewrite drop_set_absent by now apply Hno.
Qed.

Lemma distinct_length (l : list value) :
  (List.length (distinct l) <= List.length l)%nat.
Proof.
  induction l as [| x l IH]; simpl; [lia |].
  pose proof (filter_length_le (fun y => negb (value_eqb x y)) (distinct l)).
  lia.
Qed.

Lemma kept_rows_length (l : list Row) :
  (List.length (kept_rows l) <= List.length l)%nat.
Proof.
  rewrite <- (length_map (cell "id") (kept_rows l)), kept_rows_ids.
  rewrite <- (length_map (cell "id") l). apply distinct_length.
Qed.

(** What [deduplicate] returns, from the columns and the plan alone. *)
Lemma deduplicate_result (eng : Engine) (df : DataFrame) :
  deduplicate eng df =
  do _ <- resolve eng "id" (columns df);
  do _ <- resolve eng "timestamp" (columns df);
  do _ <- resolve eng "row_number"
            (with_column_name "row_number" (columns df));
  Returned
    {| columns := filter (fun c => negb (name_eqb c "row_number"))
                    (with_column_name "row_number" (columns df));
       plan := omap (fun rows => kept_rows (arrange eng rows)) (plan df) |}.
Proof.
  unfold deduplicate, df_withColumn_row_number, df_filter_eq. simpl.
  destruct (resolve eng "id" (columns df)); simpl; [| reflexivity].
  destruct (resolve eng "timestamp" (columns df)); simpl; [| reflexivity].
  destruct (resolve eng "row_number" _); simpl; [| reflexivity].
  unfold df_drop. simpl. f_equal. f_equal.
  destruct (plan df) as [rows | e]; simpl; [| reflexivity].
  f_equal. unfold window_row_number.
  apply (ranked_then_stripped eng).
Qed.

(** [deduplicate] fails only at analysis; when it succeeds the plan of
    its result is the plan of its argument, arranged by the engine and
    followed by [kept_rows]. *)
Lemma deduplicate_plan (eng : Engine) (df d : DataFrame) :
  deduplicate eng df = Returned d ->
  plan d = omap (fun rows => kept_rows (arrange eng rows)) (plan df).
Proof.
  rewrite deduplicate_result.
  destruct (resolve eng "id" (columns df)); simpl; [| discriminate].
  destruct (resolve eng "timestamp" (columns df)); simpl; [| discriminate].
  destruct (resolve eng "row_number" _); simpl; [| discriminate].
  now intros [= <-].
Qed.

Lemma df_filter_eq_plan (eng : Engine) (name : string) (lit : value)
  (df f : DataFrame) :
  df_filter_eq eng name lit df = Returned f ->
  columns f = columns df /\
  plan f = omap (filter (fun r => sql_eq eng (cell name r) lit)) (plan df).
Proof.
  unfold df_filter_eq.
  destruct (resolve eng name (columns df)); simpl; [| discriminate].
  intros [= <-]. now split.
Qed.

(** ** Column resolution *)

Lemma resolve_absent (eng : Engine) (name : string) (cols : list string) :
  has_column name cols = false ->
  resolve eng name cols
  = Raised (AnalysisException (unresolved eng name cols)).
Proof.
  intros H. unfold resolve.
  assert (E : filter (fun c => name_eqb c name) cols = []).
  { rewrite <- (filter_false cols). apply filter_ext_in.
    intros c Hc. destruct (name_eqb c name) eqn:En; [| reflexivity].
    assert (Ht : has_column name cols = true)
      by (apply existsb_exists; now exists c).
    congruence. }
  now rewrite E.
Qed.

Lemma wf_row_field (df : DataFrame) (rows : list Row) (r : Row)
  (name : string) :
  wf_df df -> plan df = Returned rows -> In r rows ->
  has_field name r = has_column name (columns df).
Proof.
  unfold wf_df. intros Hwf Hp Hr. rewrite Hp in Hwf.
  rewrite Forall_forall in Hwf.
  unfold has_field, has_column. rewrite <- (Hwf r Hr).
  now rewrite existsb_map_fst.
Qed.


Lemma columns_after_rank (cols : list string) :
  has_column "row_number" cols = false ->
  filter (fun c => negb (name_eqb c "row_number"))
    (with_column_name "row_number" cols) = cols.
Proof.
  intros Hno. unfold with_column_name. rewrite Hno, filter_app. simpl.
  rewrite app_nil_r. unfold has_column in Hno.
  induction cols as [| c cols IH]; simpl in *; [reflexivity |].
  apply orb_false_elim in Hno. destruct Hno as [Hc Hrest].
  rewrite Hc. simpl. f_equal. now apply IH.
Qed.

(** The engine's arrangement of one row is that row. *)
Lemma arrange_single (eng : Engine) (r : Row) : arrange eng [r] = [r].
Proof.
  apply Permutation_length_1_inv. symmetry. apply arrange_perm.
Qed.

Lemma arrange_In (eng : Engine) (l : list Row) (r : Row) :
  In r (arrange eng l) <-> In r l.
Proof.
  split; apply Permutation_in;
    [apply arrange_perm | symmetry; apply arrange_perm].
Qed.

Lemma arrange_length (eng : Engine) (l : list Row) :
  List.length (arrange eng l) = List.length l.
Proof. apply Permutation_length, arrange_perm. Qed.

(** ** [filter_latest_data], path by path *)

Lemma filter_latest_data_paths (iceberg_df : DataFrame)
  (cat db tbl : string) (spark : SparkSession) (ui : list ui_event) :
  filter_latest_data iceberg_df cat db tbl spark ui =
  match latest_snapshot_id_of cat db tbl spark with
  | Raised e => (Returned iceberg_df, ui ++ [fetch_error e])
  | Returned s =>
      match df_filter_eq (engine spark) "snapshot_id" s iceberg_df with
      | Raised e => (Returned iceberg_df, ui ++ [fetch_error e])
      | Returned filtered =>
          match deduplicate (engine spark) filtered with
          | Raised e => (Returned filtered, ui ++ [fetch_error e])
          | Returned deduplicated => (Returned deduplicated, ui)
          end
      end
  end.
Proof.
  unfold filter_latest_data, filter_latest_data_body, enter, try_except,
    bind, lift, get_local, set_local, ret, st_error, emit, fetch_error.
  simpl.
  destruct (latest_snapshot_id_of cat db tbl spark) as [s | e]; simpl;
    [| reflexivity].
  destruct (df_filter_eq (engine spark) "snapshot_id" s iceberg_df)
    as [f | e]; simpl; [| reflexivity].
  destruct (deduplicate (engine spark) f) as [d | e]; reflexivity.
Qed.

Lemma screen_grows (ui : list ui_event) (ev : ui_event) : ui ++ [ev] <> ui.
Proof.
  intros H. apply (f_equal (@List.length ui_event)) in H.
  rewrite List.length_app in H. simpl in H. lia.
Qed.

(** No error on the screen means that all of lines 30-44 went through. *)
Lemma filter_latest_data_quiet (iceberg_df out : DataFrame)
  (cat db tbl : string) (spark : SparkSession) (ui : list ui_event) :
  filter_latest_data iceberg_df cat db tbl spark ui = (Returned out, ui) ->
  exists s filtered,
    latest_snapshot_id_of cat db tbl spark = Returned s
    /\ df_filter_eq (engine spark) "snapshot_id" s iceberg_df
       = Returned filtered
    /\ deduplicate (engine spark) filtered = Returned out.
Proof.
  rewrite filter_latest_data_paths.
  destruct (latest_snapshot_id_of cat db tbl spark) as [s | e] eqn:E1.
  2: { intros [= _ H]. now apply screen_grows in H. }
  destruct (df_filter_eq (engine spark) "snapshot_id" s iceberg_df)
    as [f | e] eqn:E2.
  2: { intros [= _ H]. now apply screen_grows in H. }
  destruct (deduplicate (engine spark) f) as [d | e] eqn:E3.
  2: { intros [= _ H]. now apply screen_grows in H. }
  intros [= <-]. now exists s, f.
Qed.

(** X1. A failure before line 37 completes (in the history query, the
    selection of the snapshot or the snapshot filter) hands the caller's
    frame back as it is, with one error banner. *)
Lemma fallback_before_rebinding (iceberg_df : DataFrame)
  (cat db tbl : string) (spark : SparkSession) (ui : list ui_event)
  (e : exn) :
  latest_snapshot_id_of cat db tbl spark = Raised e \/
  (exists s, latest_snapshot_id_of cat db tbl spark = Returned s
             /\ df_filter_eq (engine spark) "snapshot_id" s iceberg_df
                = Raised e) ->
  filter_latest_data iceberg_df cat db tbl spark ui
  = (Returned iceberg_df, ui ++ [fetch_error e]).
Proof.
  rewrite filter_latest_data_paths.
  intros [-> | [s [-> ->]]]; reflexivity.
Qed.

(** The rows returned when no error is shown: the input rows tagged with
    the selected snapshot, in the order the engine meets them, one kept
    per id. *)
Lemma resolved_rows (iceberg_df out : DataFrame) (cat db tbl : string)
  (spark : SparkSession) (ui : list ui_event) (rows : list Row) :
  filter_latest_data iceberg_df cat db tbl spark ui = (Returned out, ui) ->
  plan out = Returned rows ->
  exists s rows_in,
    latest_snapshot_id_of cat db tbl spark = Returned s
    /\ plan iceberg_df = Returned rows_in
    /\ rows = kept_rows
                (arrange (engine spark)
                   (filter (fun r => sql_eq (engine spark)
                                       (cell "snapshot_id" r) s)
                      rows_in)).
Proof.
  intros Hrun Hrows.
  apply filter_latest_data_quiet in Hrun.
  destruct Hrun as [s [f [Hs [Hf Hd]]]].
  apply deduplicate_plan in Hd.
  apply df_filter_eq_plan in Hf. destruct Hf as [_ Hf].
  rewrite Hf in Hd. rewrite Hd in Hrows.
  destruct (plan iceberg_df) as [rows_in | e]; simpl in Hrows;
    [| discriminate].
  exists s, rows_in. repeat split; congruence.
Qed.

(** The path on which every reference resolves and the plan runs. *)
Lemma filter_latest_data_resolved (iceberg_df : DataFrame)
  (cat db tbl : string) (spark : SparkSession) (ui : list ui_event)
  (s : value) (rows_in : list Row) :
  latest_snapshot_id_of cat db tbl spark = Returned s ->
  resolve (engine spark) "snapshot_id" (columns iceberg_df) = Returned tt ->
  resolve (engine spark) "id" (columns iceberg_df) = Returned tt ->
  resolve (engine spark) "timestamp" (columns iceberg_df) = Returned tt ->
  resolve (engine spark) "row_number"
    (with_column_name "row_number" (columns iceberg_df)) = Returned tt ->
  plan iceberg_df = Returned rows_in ->
  filter_latest_data iceberg_df cat db tbl spark ui =
  (Returned
     {| columns := filter (fun c => negb (name_eqb c "row_number"))
                     (with_column_name "row_number" (columns iceberg_df));
        plan := Returned
                  (kept_rows
                     (arrange (engine spark)
                        (filter (fun r => sql_eq (engine spark)
                                            (cell "snapshot_id" r) s)
                           rows_in))) |},
   ui).
Proof.
  intros Hs Hres Hid Hts Hrn Hp.
  rewrite filter_latest_data_paths, Hs.
  unfold df_filter_eq. rewrite Hres. cbn [obind].
  rewrite deduplicate_result. cbn [columns plan].
  rewrite Hid, Hts. cbn [obind]. rewrite Hrn. cbn [obind].
  now rewrite Hp.
Qed.

(** The scenario's history selects snapshot 2, whatever the engine. *)
Lemma scenario_latest (eng : Engine) :
  latest_snapshot_id_of "ice" "db" "events"
    (session_with_history eng scenario_history) = Returned (VInt 2).
Proof.
  pose proof (arrange_perm eng [snapshot_row 1 100; snapshot_row 2 200])
    as Hp.
  apply Permutation_sym, Permutation_length_2_inv in Hp.
  unfold latest_snapshot_id_of, df_orderBy_desc, collect, df_limit.
  cbn [sql session_with_history engine history_query append String.eqb
       Ascii.eqb Bool.eqb obind columns plan scenario_history resolve
       filter name_eqb lower lower_ascii omap].
  destruct Hp as [-> | ->]; reflexivity.
Qed.

(** ** The claims *)




(** With tied commit times the selection follows the engine: on the
    same history one engine selects snapshot 1 and another snapshot 2. *)
Lemma tied_history_follows_the_engine :
  latest_snapshot_id_of "ice" "db" "events"
    (session_with_history plain_engine tied_history) = Returned (VInt 1)
  /\ latest_snapshot_id_of "ice" "db" "events"
       (session_with_history reversing_engine tied_history)
     = Returned (VInt 2).
Proof. split; reflexivity. Qed.

(** C2, as stated, fails on the fallback path: with a history query that
    raises, the input comes back as it is, and two of the returned rows
    share the id a. *)
Lemma fallback_keeps_duplicate_ids :
  exists out ui' rows r1 r2,
    filter_latest_data scenario_data "ice" "db" "events"
      (failing_session plain_engine) []
    = (Returned out, ui')
    /\ plan out = Returned rows
    /\ nth_error rows 0 = Some r1
    /\ nth_error rows 1 = Some r2
    /\ cell "id" r1 = cell "id" r2.
Proof.
  eexists _, _, _, _, _.
  split; [reflexivity |].
  split; [reflexivity |].
  split; [reflexivity |].
  split; reflexivity.
Qed.

(** C2, amended.  Whenever [filter_latest_data] returns without showing an
    error (lines 30-44 all went through), no two of the returned rows,
    taken at different positions, have the same [id]. *)
Theorem resolved_rows_have_distinct_ids
  (iceberg_df out : DataFrame) (cat db tbl : string) (spark : SparkSession)
  (ui : list ui_event) (rows : list Row) (i j : nat) (r1 r2 : Row) :
  filter_latest_data iceberg_df cat db tbl spark ui = (Returned out, ui) ->
  plan out = Returned rows ->
  nth_error rows i = Some r1 ->
  nth_error rows j = Some r2 ->
  i <> j ->
  cell "id" r1 <> cell "id" r2.
Proof.
  intros Hrun Hrows H1 H2 Hij Heq.
  destruct (resolved_rows _ _ _ _ _ _ _ _ Hrun Hrows)
    as [s [rows_in [_ [_ ->]]]].
  match type of H1 with
  | nth_error (kept_rows ?l) _ = _ =>
      pose proof (kept_rows_NoDup l) as Hnd
  end.
  rewrite NoDup_nth_error in Hnd.
  apply Hij, Hnd.
  - rewrite length_map. apply nth_error_Some. congruence.
  - rewrite !nth_error_map, H1, H2. simpl. now rewrite Heq.
Qed.

Lemma resolved_rows_have_distinct_ids_witness :
  cell "id" (data_row "a" 20 "y" 2) <> cell "id" (data_row "b" 5 "z" 2).
Proof.
  apply (resolved_rows_have_distinct_ids scenario_data
           {| columns := ["id"; "timestamp"; "v"; "snapshot_id"];
              plan := Returned [data_row "a" 20 "y" 2;
                                data_row "b" 5 "z" 2] |}
           "ice" "db" "events"
           (session_with_history plain_engine scenario_history) []
           [data_row "a" 20 "y" 2; data_row "b" 5 "z" 2] 0 1).
  - reflexivity.
  - reflexivity.
  - reflexivity.
  - reflexivity.
  - discriminate.
Defined.

(** C3 at a failing input, for every engine: the data has no [id] column,
    so line 42 raises after line 37 has rebound [iceberg_df]; the handler
    of line 49 then returns the snapshot-filtered frame, one row short of
    the input, where the comment on that line promises the original
    DataFrame. *)
Theorem fallback_after_snapshot_filter_drops_rows (eng : Engine) :
  exists out e,
    filter_latest_data data_without_id "ice" "db" "events"
      (session_with_history eng scenario_history) []
    = (Returned out, [fetch_error e])
    /\ plan out = Returned [[("timestamp", VInt 20); ("v", VStr "y");
                             ("snapshot_id", VInt 2)]]
    /\ out <> data_without_id.
Proof.
  rewrite filter_latest_data_paths, scenario_latest.
  eexists _, _.
  split; [reflexivity |].
  split; [reflexivity |].
  discriminate.
Qed.

(** C4, as stated, fails when line 42 raises: with two columns called
    [id] the reference is ambiguous, the handler returns the
    snapshot-filtered rows without deduplication, and the older row of
    id a comes back beside the newer one. *)
Lemma ambiguous_id_returns_older_row :
  exists out ui' rows r r',
    filter_latest_data data_with_two_id_columns "ice" "db" "events"
      (session_with_history plain_engine scenario_history) []
    = (Returned out, ui')
    /\ plan out = Returned rows
    /\ In r rows
    /\ plan data_with_two_id_columns = Returned [r; r']
    /\ tagged plain_engine (VInt 2) r'
    /\ cell "id" r' = cell "id" r
    /\ value_leb (cell "timestamp" r') (cell "timestamp" r) = false.
Proof.
  eexists _, _, _, _, _.
  split; [reflexivity |].
  split; [reflexivity |].
  split; [now left |].
  split; [reflexivity |].
  split; [reflexivity |].
  split; reflexivity.
Qed.

(** C4, amended.  Whenever [filter_latest_data] returns without showing
    an error, every returned row has a timestamp at least that of every
    input row tagged with the selected snapshot that has the same [id]. *)
Theorem returned_row_is_newest_of_its_key
  (iceberg_df out : DataFrame) (cat db tbl : string) (spark : SparkSession)
  (ui : list ui_event) (s : value) (rows_in rows_out : list Row)
  (r r' : Row) :
  filter_latest_data iceberg_df cat db tbl spark ui = (Returned out, ui) ->
  latest_snapshot_id_of cat db tbl spark = Returned s ->
  plan iceberg_df = Returned rows_in ->
  plan out = Returned rows_out ->
  In r rows_out ->
  In r' rows_in ->
  tagged (engine spark) s r' ->
  cell "id" r' = cell "id" r ->
  value_leb (cell "timestamp" r') (cell "timestamp" r) = true.
Proof.
  intros Hrun Hs Hin Hout Hr Hr' Htag Hid.
  destruct (resolved_rows _ _ _ _ _ _ _ _ Hrun Hout)
    as [s0 [rows0 [Hs0 [Hin0 ->]]]].
  assert (s0 = s) by congruence. assert (rows0 = rows_in) by congruence.
  subst s0 rows0.
  apply kept_row_source in Hr. destruct Hr as [h [Hh [-> Hmax]]].
  rewrite cell_strip_rank in Hid |- * by reflexivity.
  apply Hmax; [| exact Hid].
  apply arrange_In, filter_In. now split.
Qed.

Lemma returned_row_is_newest_of_its_key_witness :
  value_leb (cell "timestamp" (data_row "a" 10 "x" 2))
    (cell "timestamp" (data_row "a" 20 "y" 2)) = true.
Proof.
  apply (returned_row_is_newest_of_its_key two_snapshot_data
           {| columns := ["id"; "timestamp"; "v"; "snapshot_id"];
              plan := Returned [data_row "a" 20 "y" 2;
                                data_row "b" 5 "z" 2] |}
           "ice" "db" "events"
           (session_with_history plain_engine scenario_history)
           [] (VInt 2)
           [data_row "a" 30 "w" 1; data_row "a" 10 "x" 2;
            data_row "a" 20 "y" 2; data_row "b" 5 "z" 2]
           [data_row "a" 20 "y" 2; data_row "b" 5 "z" 2]).
  - reflexivity.
  - reflexivity.
  - reflexivity.
  - reflexivity.
  - simpl. auto.
  - simpl. auto.
  - reflexivity.
  - reflexivity.
Defined.

(** C5. [run_query] never raises: it returns the frame that
    [spark.sql] gave for the text as it is, or, when [spark.sql] raised,
    the text of the exception; it shows nothing. *)
Theorem run_query_never_raises
  (spark : SparkSession) (query : string) (ui : list ui_event) :
  exists result,
    run_query spark query ui = (Returned result, ui)
    /\ ((exists df, sql spark query = Returned df
                    /\ result = ResultFrame df)
        \/ (exists e, sql spark query = Raised e
                      /\ result = ResultText (str e))).
Proof.
  unfold run_query, enter, try_except, bind, lift, ret. simpl.
  destruct (sql spark query) as [df | e]; simpl.
  - exists (ResultFrame df). split; [reflexivity |]. left. now exists df.
  - exists (ResultText (str e)). split; [reflexivity |]. right.
    now exists e.
Qed.

(** ** [execute_query], path by path *)

Lemma execute_query_paths (spark : SparkSession) (query : string)
  (ui : list ui_event) :
  execute_query spark query ui =
  match sql spark query with
  | Raised e =>
      (Returned None,
       ui ++ [Progress 0; Progress 50;
              StError ("Error running query: " ++ str e)])
  | Returned df =>
      match toPandas (engine spark) df with
      | Raised e =>
          (Returned None,
           ui ++ [Progress 0; Progress 50;
                  StError ("Error executing the query: " ++ str e)])
      | Returned pandas_df =>
          if pd_empty pandas_df
          then (Returned None,
                ui ++ [Progress 0; Progress 50;
                       StInfo "No results returned for the query."])
          else (Returned (Some pandas_df),
                ui ++ [Progress 0; Progress 50; Progress 100])
      end
  end.
Proof.
  unfold execute_query, run_query, enter, call, try_except, bind, lift, ret,
    progress_bar_progress, st_error, st_info, emit.
  simpl.
  destruct (sql spark query) as [df | e]; simpl.
  - destruct (toPandas (engine spark) df) as [p | e]; simpl.
    + destruct (pd_empty p); simpl; now rewrite <- !app_assoc.
    + now rewrite <- !app_assoc.
  - now rewrite <- !app_assoc.
Qed.

(** The conversion of no rows gives no rows. *)
Lemma to_pandas_nil (eng : Engine) (cols : list string) :
  to_pandas_rows eng cols [] = [].
Proof.
  apply length_zero_iff_nil. now rewrite to_pandas_length.
Qed.

(** C6. A statement that the engine accepts and whose materialized result
    has no rows makes [execute_query] show the notice (an info, not an
    error) and return [None]; an exception of the engine while the
    statement is run or while its result is materialized is shown as an
    error, and [None] is returned. *)
Theorem execute_query_empty_or_failed
  (spark : SparkSession) (query : string) (ui : list ui_event) :
  (forall df,
      sql spark query = Returned df -> plan df = Returned [] ->
      execute_query spark query ui
      = (Returned None,
         ui ++ [Progress 0; Progress 50;
                StInfo "No results returned for the query."]))
  /\ (forall e,
        sql spark query = Raised e ->
        execute_query spark query ui
        = (Returned None,
           ui ++ [Progress 0; Progress 50;
                  StError ("Error running query: " ++ str e)]))
  /\ (forall df e,
        sql spark query = Returned df -> plan df = Raised e ->
        execute_query spark query ui
        = (Returned None,
           ui ++ [Progress 0; Progress 50;
                  StError ("Error executing the query: " ++ str e)])).
Proof.
  rewrite execute_query_paths.
  repeat split.
  - intros df -> Hp. unfold toPandas. rewrite Hp. simpl.
    rewrite to_pandas_nil.
    unfold pd_empty. simpl. now destruct (columns df).
  - now intros e ->.
  - intros df e -> Hp. unfold toPandas. now rewrite Hp.
Qed.

Lemma execute_query_empty_or_failed_witness :
  execute_query (session_answering plain_engine empty_table)
    "SELECT * FROM t" []
  = (Returned None,
     [Progress 0; Progress 50; StInfo "No results returned for the query."])
  /\ execute_query (failing_session plain_engine)
       "SELECT * FROM nonexistent" []
     = (Returned None,
        [Progress 0; Progress 50;
         StError "Error running query: Table or view not found"])
  /\ execute_query (session_answering plain_engine broken_table)
       "SELECT * FROM t" []
     = (Returned None,
        [Progress 0; Progress 50;
         StError "Error executing the query: Job aborted"]).
Proof.
  split; [| split].
  - apply (proj1 (execute_query_empty_or_failed
                    (session_answering plain_engine empty_table)
                    "SELECT * FROM t" [])
             empty_table); reflexivity.
  - apply (proj1 (proj2 (execute_query_empty_or_failed
                           (failing_session plain_engine)
                           "SELECT * FROM nonexistent" []))
             (EngineError "Table or view not found")); reflexivity.
  - apply (proj2 (proj2 (execute_query_empty_or_failed
                           (session_answering plain_engine broken_table)
                           "SELECT * FROM t" []))
             broken_table (EngineError "Job aborted")); reflexivity.
Defined.

(** ** The scenario of the specification *)

Lemma Permutation_length_3_inv (A : Type) (a b c : A) (l : list A) :
  Permutation [a; b; c] l ->
  l = [a; b; c] \/ l = [a; c; b] \/ l = [b; a; c]
  \/ l = [b; c; a] \/ l = [c; a; b] \/ l = [c; b; a].
Proof.
  intros Hp. destruct l as [| x l].
  - apply Permutation_sym, Permutation_nil in Hp. discriminate.
  - assert (Hx : In x [a; b; c])
      by (apply (Permutation_in x (Permutation_sym Hp)); now left).
    destruct Hx as [<- | [<- | [<- | []]]].
    + apply Permutation_cons_inv, Permutation_length_2_inv in Hp.
      destruct Hp as [-> | ->]; tauto.
    + apply Permutation_sym in Hp.
      apply (Permutation_cons_app_inv [a] [c]) in Hp.
      apply Permutation_sym, Permutation_length_2_inv in Hp.
      destruct Hp as [-> | ->]; tauto.
    + apply Permutation_sym in Hp.
      apply (Permutation_cons_app_inv [a; b] []) in Hp.
      apply Permutation_sym, Permutation_length_2_inv in Hp.
      destruct Hp as [-> | ->]; tauto.
Qed.

(** Whatever order the engine meets the three rows of the scenario in,
    the rows kept are the row of a at 20 and the row of b. *)
Lemma scenario_kept_rows (eng : Engine) :
  Permutation
    (kept_rows
       (arrange eng [data_row "a" 10 "x" 2; data_row "a" 20 "y" 2;
                     data_row "b" 5 "z" 2]))
    [data_row "a" 20 "y" 2; data_row "b" 5 "z" 2].
Proof.
  pose proof (arrange_perm eng [data_row "a" 10 "x" 2; data_row "a" 20 "y" 2;
                                data_row "b" 5 "z" 2]) as Hp.
  apply Permutation_sym, Permutation_length_3_inv in Hp.
  destruct Hp as [-> | [-> | [-> | [-> | [-> | ->]]]]];
    vm_compute; first [apply Permutation_refl | apply perm_swap].
Qed.

(** C7. On the scenario, for every engine, [filter_latest_data] shows
    nothing and returns the rank-1 row of each id and nothing else: the
    row of a with v = y and the row of b with v = z, in the order the
    engine gives them, with the rank column dropped. *)
Theorem scenario_resolves_to_latest_rows (eng : Engine) :
  exists out rows,
    filter_latest_data scenario_data "ice" "db" "events"
      (session_with_history eng scenario_history) []
    = (Returned out, [])
    /\ plan out = Returned rows
    /\ Permutation rows [data_row "a" 20 "y" 2; data_row "b" 5 "z" 2]
    /\ Permutation (map id_and_v rows)
         [[("id", VStr "a"); ("v", VStr "y")];
          [("id", VStr "b"); ("v", VStr "z")]]
    /\ Forall (fun r => has_field "row_number" r = false) rows.
Proof.
  rewrite (filter_latest_data_resolved scenario_data "ice" "db" "events"
             (session_with_history eng scenario_history) [] (VInt 2)
             [data_row "a" 10 "x" 2; data_row "a" 20 "y" 2;
              data_row "b" 5 "z" 2])
    by (try apply scenario_latest; reflexivity).
  eexists _, _. split; [reflexivity |]. split; [reflexivity |].
  change (filter
            (fun r =>
               sql_eq (engine (session_with_history eng scenario_history))
                 (cell "snapshot_id" r) (VInt 2))
            [data_row "a" 10 "x" 2; data_row "a" 20 "y" 2;
             data_row "b" 5 "z" 2])
    with [data_row "a" 10 "x" 2; data_row "a" 20 "y" 2;
          data_row "b" 5 "z" 2].
  change (engine (session_with_history eng scenario_history)) with eng.
  pose proof (scenario_kept_rows eng) as Hk.
  split; [exact Hk |]. split.
  - apply (Permutation_map id_and_v) in Hk. exact Hk.
  - eapply Permutation_Forall; [symmetry; exact Hk |].
    repeat constructor.
Qed.

(** C8, as stated, fails: when the statement is refused the milestones
    reported are 0 and 50 only. *)
Lemma failed_query_stops_at_50 :
  exists r ui',
    execute_query (failing_session plain_engine)
      "SELECT * FROM nonexistent" []
    = (r, ui')
    /\ progress_of ui' <> [0; 50; 100]%Z.
Proof.
  eexists _, _. split; [reflexivity |]. discriminate.
Qed.

(** C8, amended.  [execute_query] never raises; it reports 0 first and 50
    once [run_query] is back.  When the statement is accepted and its
    result materializes to a table that is not empty, it then reports 100
    and returns that table, and these three milestones are all it shows.
    In every other case it returns [None] and the milestones are 0 and 50
    only. *)
Theorem execute_query_milestones
  (spark : SparkSession) (query : string) (ui : list ui_event) :
  exists result shown,
    execute_query spark query ui = (Returned result, ui ++ shown)
    /\ ((exists df pandas_df,
            sql spark query = Returned df
            /\ toPandas (engine spark) df = Returned pandas_df
            /\ pd_empty pandas_df = false
            /\ result = Some pandas_df
            /\ shown = [Progress 0; Progress 50; Progress 100])
        \/ (~ (exists df pandas_df,
                  sql spark query = Returned df
                  /\ toPandas (engine spark) df = Returned pandas_df
                  /\ pd_empty pandas_df = false)
            /\ result = None
            /\ progress_of shown = [0; 50]%Z)).
Proof.
  rewrite execute_query_paths.
  destruct (sql spark query) as [df | e] eqn:Hsql.
  - destruct (toPandas (engine spark) df) as [p | e] eqn:Hp.
    + destruct (pd_empty p) eqn:He.
      * eexists _, _. split; [reflexivity |]. right.
        split; [| now split].
        intros [df' [p' [[= <-] [Hp' He']]]].
        assert (p' = p) by congruence. subst p'. congruence.
      * eexists _, _. split; [reflexivity |]. left.
        exists df, p. repeat split; auto.
    + eexists _, _. split; [reflexivity |]. right.
      split; [| now split].
      intros [df' [p' [[= <-] [Hp' _]]]]. congruence.
  - eexists _, _. split; [reflexivity |]. right.
    split; [| now split].
    intros [df' [p' [H _]]]. discriminate.
Qed.

(** C9 at a failing input, for every engine: the data has a column of
    its own called [row_number]; line 42 overwrites it with the rank and
    line 44 drops it, so the row that comes back is not a row of the
    input and the returned frame has lost a column. *)
Theorem own_rank_column_is_lost (eng : Engine) :
  exists out rows r,
    filter_latest_data data_with_rank_column "ice" "db" "events"
      (session_with_history eng scenario_history) []
    = (Returned out, [])
    /\ plan out = Returned rows
    /\ In r rows
    /\ ~ In r [[("id", VStr "a"); ("timestamp", VInt 10);
                ("snapshot_id", VInt 2); ("row_number", VInt 7)]]
    /\ plan data_with_rank_column
       = Returned [[("id", VStr "a"); ("timestamp", VInt 10);
                    ("snapshot_id", VInt 2); ("row_number", VInt 7)]]
    /\ columns out = ["id"; "timestamp"; "snapshot_id"].
Proof.
  rewrite (filter_latest_data_resolved data_with_rank_column "ice" "db"
             "events" (session_with_history eng scenario_history) []
             (VInt 2)
             [[("id", VStr "a"); ("timestamp", VInt 10);
               ("snapshot_id", VInt 2); ("row_number", VInt 7)]])
    by (try apply scenario_latest; reflexivity).
  change (filter
            (fun r =>
               sql_eq (engine (session_with_history eng scenario_history))
                 (cell "snapshot_id" r) (VInt 2))
            [[("id", VStr "a"); ("timestamp", VInt 10);
              ("snapshot_id", VInt 2); ("row_number", VInt 7)]])
    with [[("id", VStr "a"); ("timestamp", VInt 10);
           ("snapshot_id", VInt 2); ("row_number", VInt 7)]].
  rewrite arrange_single.
  eexists _, _, _.
  split; [reflexivity |].
  split; [reflexivity |].
  split; [now left |].
  split; [| split; reflexivity].
  intros [H | []]. discriminate.
Qed.

(** C10. [display_results] never raises; it shows a table exactly when
    its argument is not [None], and what it shows then is that table and
    nothing else; given [None] it shows nothing. *)
Theorem display_results_iff_not_none
  (df : option PandasDF) (ui : list ui_event) :
  exists shown,
    display_results df ui = (Returned tt, ui ++ shown)
    /\ ((exists d, In (StDataframe d) shown) <-> df <> None)
    /\ (forall d, df = Some d -> shown = [StDataframe d])
    /\ (df = None -> shown = []).
Proof.
  destruct df as [d |].
  - exists [StDataframe d].
    split; [reflexivity |]. split; [| split].
    + split; [discriminate |]. intros _. exists d. now left.
    + now intros d' [= ->].
    + discriminate.
  - exists []. unfold display_results, enter, ret. simpl.
    rewrite app_nil_r.
    split; [reflexivity |]. split; [| split].
    + split; [intros [d []] | congruence].
    + discriminate.
    + reflexivity.
Qed.

Lemma display_results_iff_not_none_witness :
  exists shown,
    display_results (Some {| pd_columns := ["id"]; pd_rows := [] |}) []
    = (Returned tt, [] ++ shown)
    /\ ((exists d, In (StDataframe d) shown)
        <-> Some {| pd_columns := ["id"]; pd_rows := [] |} <> None)
    /\ (forall d, Some {| pd_columns := ["id"]; pd_rows := [] |} = Some d ->
                  shown = [StDataframe d])
    /\ (Some {| pd_columns := ["id"]; pd_rows := [] |} = None -> shown = []).
Proof.
  apply (display_results_iff_not_none
           (Some {| pd_columns := ["id"]; pd_rows := [] |}) []).
Defined.

(** * Further properties of the code *)

(** ** [filter_latest_data]: the fallback and what it hands back *)

Lemma fallback_before_rebinding_witness :
  filter_latest_data scenario_data "ice" "db" "events"
    (failing_session plain_engine) []
  = (Returned scenario_data,
     [] ++ [fetch_error (EngineError "Table or view not found")]).
Proof.
  apply fallback_before_rebinding. left. reflexivity.
Defined.

(** X2. A history relation in which [timestamp] resolves and which has
    no rows: [collect()[0]] raises [IndexError], the banner says so, and
    the frame that was passed in comes back as it is. *)
Theorem empty_history_falls_back
  (iceberg_df history : DataFrame) (cat db tbl : string)
  (spark : SparkSession) (ui : list ui_event) :
  sql spark (history_query cat db tbl) = Returned history ->
  resolve (engine spark) "timestamp" (columns history) = Returned tt ->
  plan history = Returned [] ->
  filter_latest_data iceberg_df cat db tbl spark ui
  = (Returned iceberg_df,
     ui ++ [StError "Error fetching snapshot data: list index out of range"]).
Proof.
  intros Hsql Hts Hplan.
  rewrite filter_latest_data_paths.
  unfold latest_snapshot_id_of. rewrite Hsql. simpl.
  unfold df_orderBy_desc. rewrite Hts. simpl.
  unfold collect, df_limit. simpl. rewrite Hplan. simpl.
  assert (E : arrange (engine spark) [] = []).
  { apply Permutation_nil. symmetry. apply arrange_perm. }
  now rewrite E.
Qed.

Lemma empty_history_falls_back_witness :
  filter_latest_data scenario_data "ice" "db" "events"
    (session_with_history plain_engine empty_history) []
  = (Returned scenario_data,
     [] ++ [StError "Error fetching snapshot data: list index out of range"]).
Proof.
  apply (empty_history_falls_back scenario_data empty_history).
  - reflexivity.
  - reflexivity.
  - reflexivity.
Defined.

(** X3. A history relation none of whose columns is called [timestamp],
    in any letter case: line 33 raises at analysis, and the frame that
    was passed in comes back as it is, with one banner that carries the
    engine's message. *)
Theorem history_without_timestamp_falls_back
  (iceberg_df history : DataFrame) (cat db tbl : string)
  (spark : SparkSession) (ui : list ui_event) :
  sql spark (history_query cat db tbl) = Returned history ->
  has_column "timestamp" (columns history) = false ->
  filter_latest_data iceberg_df cat db tbl spark ui
  = (Returned iceberg_df,
     ui ++ [StError ("Error fetching snapshot data: "
                       ++ unresolved (engine spark) "timestamp"
                            (columns history))]).
Proof.
  intros Hsql Hno.
  rewrite filter_latest_data_paths.
  unfold latest_snapshot_id_of. rewrite Hsql. simpl.
  unfold df_orderBy_desc. now rewrite (resolve_absent _ _ _ Hno).
Qed.

Lemma history_without_timestamp_falls_back_witness :
  filter_latest_data scenario_data "ice" "db" "events"
    (session_with_history plain_engine history_made_current_at) []
  = (Returned scenario_data,
     [] ++ [StError ("Error fetching snapshot data: "
                       ++ unresolved plain_engine "timestamp"
                            ["made_current_at"; "snapshot_id"])]).
Proof.
  apply (history_without_timestamp_falls_back scenario_data
           history_made_current_at "ice" "db" "events"
           (session_with_history plain_engine history_made_current_at)).
  - reflexivity.
  - reflexivity.
Defined.

(** X4. Data none of whose columns is called [snapshot_id], in any
    letter case: line 37 raises at analysis, before anything is rebound,
    and the frame that was passed in comes back as it is, with one banner
    that carries the engine's message. *)
Theorem data_without_snapshot_column_falls_back
  (iceberg_df : DataFrame) (cat db tbl : string) (spark : SparkSession)
  (ui : list ui_event) (s : value) :
  latest_snapshot_id_of cat db tbl spark = Returned s ->
  has_column "snapshot_id" (columns iceberg_df) = false ->
  filter_latest_data iceberg_df cat db tbl spark ui
  = (Returned iceberg_df,
     ui ++ [StError ("Error fetching snapshot data: "
                       ++ unresolved (engine spark) "snapshot_id"
                            (columns iceberg_df))]).
Proof.
  intros Hs Hno.
  rewrite filter_latest_data_paths, Hs.
  unfold df_filter_eq. now rewrite (resolve_absent _ _ _ Hno).
Qed.

Lemma data_without_snapshot_column_falls_back_witness :
  filter_latest_data empty_table "ice" "db" "events"
    (session_with_history plain_engine scenario_history) []
  = (Returned empty_table,
     [] ++ [StError ("Error fetching snapshot data: "
                       ++ unresolved plain_engine "snapshot_id"
                            ["id"; "v"])]).
Proof.
  apply (data_without_snapshot_column_falls_back empty_table "ice" "db"
           "events" (session_with_history plain_engine scenario_history)
           [] (VInt 2)).
  - reflexivity.
  - reflexivity.
Defined.

(** X5. [filter_latest_data] never raises, and it shows nothing or
    exactly one error banner. *)
Theorem filter_latest_data_shows_at_most_one_error
  (iceberg_df : DataFrame) (cat db tbl : string) (spark : SparkSession)
  (ui : list ui_event) :
  exists out,
    filter_latest_data iceberg_df cat db tbl spark ui = (Returned out, ui)
    \/ exists e,
         filter_latest_data iceberg_df cat db tbl spark ui
         = (Returned out, ui ++ [fetch_error e]).
Proof.
  rewrite filter_latest_data_paths.
  destruct (latest_snapshot_id_of cat db tbl spark) as [s | e];
    [| exists iceberg_df; right; now exists e].
  destruct (df_filter_eq (engine spark) "snapshot_id" s iceberg_df)
    as [f | e]; [| exists iceberg_df; right; now exists e].
  destruct (deduplicate (engine spark) f) as [d | e];
    [exists d; now left | exists f; right; now exists e].
Qed.

(** X6. For an input none of whose columns is called [row_number], in
    any letter case, the frame that comes back has the columns of the
    input, on every path. *)
Theorem returned_frame_keeps_schema
  (iceberg_df : DataFrame) (cat db tbl : string) (spark : SparkSession)
  (ui : list ui_event) :
  has_column "row_number" (columns iceberg_df) = false ->
  exists out ui',
    filter_latest_data iceberg_df cat db tbl spark ui = (Returned out, ui')
    /\ columns out = columns iceberg_df.
Proof.
  intros Hno. rewrite filter_latest_data_paths.
  destruct (latest_snapshot_id_of cat db tbl spark) as [s | e];
    [| now eexists _, _].
  destruct (df_filter_eq (engine spark) "snapshot_id" s iceberg_df)
    as [f | e] eqn:Hf; [| now eexists _, _].
  apply df_filter_eq_plan in Hf. destruct Hf as [Hcols _].
  destruct (deduplicate (engine spark) f) as [d | e] eqn:Hd;
    [| now eexists _, _].
  eexists _, _. split; [reflexivity |].
  rewrite deduplicate_result in Hd.
  destruct (resolve (engine spark) "id" (columns f));
    simpl in Hd; [| discriminate].
  destruct (resolve (engine spark) "timestamp" (columns f));
    simpl in Hd; [| discriminate].
  destruct (resolve (engine spark) "row_number" _);
    simpl in Hd; [| discriminate].
  injection Hd as <-. simpl. rewrite Hcols. now apply columns_after_rank.
Qed.

Lemma returned_frame_keeps_schema_witness :
  exists out ui',
    filter_latest_data two_snapshot_data "ice" "db" "events"
      (session_with_history plain_engine scenario_history) []
    = (Returned out, ui')
    /\ columns out = ["id"; "timestamp"; "v"; "snapshot_id"].
Proof.
  apply (returned_frame_keeps_schema two_snapshot_data).
  reflexivity.
Defined.

(** X7. No key is lost: when no error is shown, every input row tagged
    with the selected snapshot has its [id] among the returned rows. *)
Theorem resolved_rows_cover_every_key
  (iceberg_df out : DataFrame) (cat db tbl : string) (spark : SparkSession)
  (ui : list ui_event) (s : value) (rows_in rows_out : list Row)
  (r' : Row) :
  filter_latest_data iceberg_df cat db tbl spark ui = (Returned out, ui) ->
  latest_snapshot_id_of cat db tbl spark = Returned s ->
  plan iceberg_df = Returned rows_in ->
  plan out = Returned rows_out ->
  In r' rows_in ->
  tagged (engine spark) s r' ->
  exists r, In r rows_out /\ cell "id" r = cell "id" r'.
Proof.
  intros Hrun Hs Hin Hout Hr' Htag.
  destruct (resolved_rows _ _ _ _ _ _ _ _ Hrun Hout)
    as [s0 [rows0 [Hs0 [Hin0 ->]]]].
  assert (s0 = s) by congruence. assert (rows0 = rows_in) by congruence.
  subst s0 rows0.
  set (l := arrange (engine spark)
              (filter (fun r => sql_eq (engine spark)
                                  (cell "snapshot_id" r) s) rows_in)).
  assert (Hl : In r' l).
  { apply arrange_In, filter_In. now split. }
  assert (Hk : In (cell "id" r') (map (cell "id") (kept_rows l))).
  { rewrite kept_rows_ids. apply distinct_In. now apply in_map. }
  apply in_map_iff in Hk. destruct Hk as [r [Heq Hr]]. now exists r.
Qed.

Lemma resolved_rows_cover_every_key_witness :
  exists r,
    In r [data_row "a" 20 "y" 2; data_row "b" 5 "z" 2]
    /\ cell "id" r = cell "id" (data_row "a" 10 "x" 2).
Proof.
  apply (resolved_rows_cover_every_key two_snapshot_data
           {| columns := ["id"; "timestamp"; "v"; "snapshot_id"];
              plan := Returned [data_row "a" 20 "y" 2;
                                data_row "b" 5 "z" 2] |}
           "ice" "db" "events"
           (session_with_history plain_engine scenario_history) []
           (VInt 2)
           [data_row "a" 30 "w" 1; data_row "a" 10 "x" 2;
            data_row "a" 20 "y" 2; data_row "b" 5 "z" 2]).
  - reflexivity.
  - reflexivity.
  - reflexivity.
  - reflexivity.
  - simpl. auto.
  - reflexivity.
Defined.

(** X9. The [try] block runs no action on the data, so a plan that fails
    when it is run is not caught here: on every path the frame that comes
    back carries the same failing plan. *)
Theorem failing_plan_passes_through
  (iceberg_df : DataFrame) (cat db tbl : string) (spark : SparkSession)
  (ui : list ui_event) (e : exn) :
  plan iceberg_df = Raised e ->
  exists out ui',
    filter_latest_data iceberg_df cat db tbl spark ui = (Returned out, ui')
    /\ plan out = Raised e.
Proof.
  intros Hp. rewrite filter_latest_data_paths.
  destruct (latest_snapshot_id_of cat db tbl spark) as [s | e1];
    [| now eexists _, _].
  destruct (df_filter_eq (engine spark) "snapshot_id" s iceberg_df)
    as [f | e1] eqn:Hf; [| now eexists _, _].
  apply df_filter_eq_plan in Hf. destruct Hf as [_ Hf].
  rewrite Hp in Hf. simpl in Hf.
  destruct (deduplicate (engine spark) f) as [d | e1] eqn:Hd;
    [| now eexists _, _].
  apply deduplicate_plan in Hd. rewrite Hf in Hd.
  now eexists _, _.
Qed.

Lemma failing_plan_passes_through_witness :
  exists out ui',
    filter_latest_data broken_data "ice" "db" "events"
      (session_with_history plain_engine scenario_history) []
    = (Returned out, ui')
    /\ plan out = Raised (EngineError "Job aborted").
Proof.
  apply (failing_plan_passes_through broken_data). reflexivity.
Defined.

(** X10. [filter_latest_data] never hands back more rows than it was
    given, on any path and whatever the columns of the input are. *)
Theorem filter_latest_data_never_adds_rows
  (iceberg_df : DataFrame) (cat db tbl : string) (spark : SparkSession)
  (ui : list ui_event) (rows_in : list Row) :
  plan iceberg_df = Returned rows_in ->
  exists out ui' rows_out,
    filter_latest_data iceberg_df cat db tbl spark ui = (Returned out, ui')
    /\ plan out = Returned rows_out
    /\ (List.length rows_out <= List.length rows_in)%nat.
Proof.
  intros Hin. rewrite filter_latest_data_paths.
  destruct (latest_snapshot_id_of cat db tbl spark) as [s | e];
    [| now eexists _, _, rows_in].
  destruct (df_filter_eq (engine spark) "snapshot_id" s iceberg_df)
    as [f | e] eqn:Hf; [| now eexists _, _, rows_in].
  apply df_filter_eq_plan in Hf. destruct Hf as [_ Hf].
  rewrite Hin in Hf. simpl in Hf.
  pose proof (filter_length_le
                (fun r => sql_eq (engine spark) (cell "snapshot_id" r) s)
                rows_in) as Hle.
  destruct (deduplicate (engine spark) f) as [d | e] eqn:Hd.
  - apply deduplicate_plan in Hd. rewrite Hf in Hd. simpl in Hd.
    eexists _, _, _. split; [reflexivity |]. split; [exact Hd |].
    match goal with
    | |- (List.length (kept_rows ?l) <= _)%nat =>
        pose proof (kept_rows_length l) as Hk
    end.
    rewrite arrange_length in Hk. lia.
  - eexists _, _, _. split; [reflexivity |]. split; [exact Hf | exact Hle].
Qed.

Lemma filter_latest_data_never_adds_rows_witness :
  exists out ui' rows_out,
    filter_latest_data data_with_rank_column "ice" "db" "events"
      (session_with_history plain_engine scenario_history) []
    = (Returned out, ui')
    /\ plan out = Returned rows_out
    /\ (List.length rows_out <= 1)%nat.
Proof.
  apply (filter_latest_data_never_adds_rows data_with_rank_column "ice"
           "db" "events"
           (session_with_history plain_engine scenario_history) []
           [[("id", VStr "a"); ("timestamp", VInt 10);
             ("snapshot_id", VInt 2); ("row_number", VInt 7)]]).
  reflexivity.
Defined.

(** X18. For a well-formed input none of whose columns is called
    [row_number], in any letter case, [filter_latest_data] never raises
    and each row of the frame that comes back is a row of the input, on
    the path without an error as well as on the fallback. *)
Theorem returned_rows_come_from_input
  (iceberg_df : DataFrame) (cat db tbl : string) (spark : SparkSession)
  (ui : list ui_event) (rows_in : list Row) :
  wf_df iceberg_df ->
  has_column "row_number" (columns iceberg_df) = false ->
  plan iceberg_df = Returned rows_in ->
  exists out ui' rows_out,
    filter_latest_data iceberg_df cat db tbl spark ui = (Returned out, ui')
    /\ plan out = Returned rows_out
    /\ incl rows_out rows_in.
Proof.
  intros Hwf Hno Hin.
  rewrite filter_latest_data_paths.
  destruct (latest_snapshot_id_of cat db tbl spark) as [s | e].
  2: { eexists _, _, rows_in. repeat split; auto. apply incl_refl. }
  destruct (df_filter_eq (engine spark) "snapshot_id" s iceberg_df)
    as [f | e] eqn:Hf.
  2: { eexists _, _, rows_in. repeat split; auto. apply incl_refl. }
  apply df_filter_eq_plan in Hf. destruct Hf as [_ Hf].
  rewrite Hin in Hf. simpl in Hf.
  destruct (deduplicate (engine spark) f) as [d | e] eqn:Hd.
  2: { eexists _, _, _. repeat split; [exact Hf |]. apply incl_filter. }
  apply deduplicate_plan in Hd. rewrite Hf in Hd. simpl in Hd.
  eexists _, _, _. repeat split; [exact Hd |].
  intros r Hr. apply kept_rows_incl in Hr.
  - apply arrange_In, filter_In in Hr. tauto.
  - intros r0 Hr0. apply arrange_In, filter_In in Hr0.
    destruct Hr0 as [Hr0 _].
    now rewrite (wf_row_field iceberg_df rows_in r0 "row_number" Hwf Hin Hr0).
Qed.

Lemma returned_rows_come_from_input_witness :
  exists out ui' rows_out,
    filter_latest_data two_snapshot_data "ice" "db" "events"
      (session_with_history plain_engine scenario_history) []
    = (Returned out, ui')
    /\ plan out = Returned rows_out
    /\ incl rows_out
         [data_row "a" 30 "w" 1; data_row "a" 10 "x" 2;
          data_row "a" 20 "y" 2; data_row "b" 5 "z" 2].
Proof.
  apply (returned_rows_come_from_input two_snapshot_data "ice" "db" "events"
           (session_with_history plain_engine scenario_history) []).
  - repeat constructor.
  - reflexivity.
  - reflexivity.
Defined.

(** ** [execute_query] followed by [display_results] *)




(** One run of [execute_query] and [display_results], as [main] chains
    them: neither raises, and of a table, a notice and an error exactly
    one is shown. *)
Lemma execute_display_outcome (spark : SparkSession) (query : string)
  (ui : list ui_event) :
  exists result shown shown' ev,
    execute_query spark query ui = (Returned result, ui ++ shown)
    /\ display_results result (ui ++ shown)
       = (Returned tt, ui ++ shown ++ shown')
    /\ outcomes_of (shown ++ shown') = [ev]
    /\ match result with
       | Some p => ev = StDataframe p
       | None => exists msg, ev = StInfo msg \/ ev = StError msg
       end.
Proof.
  rewrite execute_query_paths.
  destruct (sql spark query) as [df | e].
  - destruct (toPandas (engine spark) df) as [p | e].
    + destruct (pd_empty p).
      * eexists None, _, [], _. split; [reflexivity |].
        split; [cbn; now rewrite ?app_nil_r |].
        split; [reflexivity |]. eexists. now left.
      * eexists (Some p), _, [StDataframe p], _. split; [reflexivity |].
        split; [cbn; now rewrite <- ?app_assoc |].
        split; reflexivity.
    + eexists None, _, [], _. split; [reflexivity |].
      split; [cbn; now rewrite ?app_nil_r |].
      split; [reflexivity |]. eexists. now right.
  - eexists None, _, [], _. split; [reflexivity |].
    split; [cbn; now rewrite ?app_nil_r |].
    split; [reflexivity |]. eexists. now right.
Qed.

(** X11. Whatever the session and the statement, running
    [execute_query] and passing its result to [display_results] shows
    exactly one of a table, an informational notice and an error; the
    table is shown when and only when [execute_query] returned one. *)
Theorem execute_then_display_shows_one_outcome
  (spark : SparkSession) (query : string) (ui : list ui_event) :
  exists result shown shown' ev,
    execute_query spark query ui = (Returned result, ui ++ shown)
    /\ display_results result (ui ++ shown)
       = (Returned tt, ui ++ shown ++ shown')
    /\ outcomes_of (shown ++ shown') = [ev]
    /\ ((exists p, ev = StDataframe p) <-> result <> None).
Proof.
  destruct (execute_display_outcome spark query ui)
    as [result [shown [shown' [ev [H1 [H2 [H3 H4]]]]]]].
  exists result, shown, shown', ev. repeat split; auto.
  - intros [p ->]. destruct result as [p0 |]; [discriminate |].
    destruct H4 as [msg [H | H]]; discriminate.
  - intros Hr. destruct result as [p |]; [now exists p | congruence].
Qed.

(** ** The options [initialize_spark] gives the builder *)

Lemma append_eqb_cancel (c a b : string) :
  String.eqb (c ++ a) (c ++ b) = String.eqb a b.
Proof.
  induction c as [| x c IH]; simpl; [reflexivity |].
  now rewrite Ascii.eqb_refl.
Qed.

Lemma eqb_self_append (c t : string) :
  t <> "" -> String.eqb c (c ++ t) = false.
Proof.
  intros Ht. induction c as [| x c IH]; simpl.
  - destruct t; [congruence | reflexivity].
  - now rewrite Ascii.eqb_refl.
Qed.

Lemma eqb_append_self (c t : string) :
  t <> "" -> String.eqb (c ++ t) c = false.
Proof.
  intros Ht. rewrite String.eqb_sym. now apply eqb_self_append.
Qed.

Ltac distinct_keys H :=
  apply String.eqb_eq in H; cbn in H;
  rewrite ?append_eqb_cancel, ?eqb_self_append, ?eqb_append_self in H
    by discriminate;
  cbn in H; discriminate.

(** The seven keys differ, whatever the catalog is called. *)
Lemma builder_keys_distinct (dir bucket key catalog : string) :
  NoDup (map fst (builder_settings dir bucket key catalog)).
Proof.
  unfold builder_settings. cbn [map fst].
  repeat (constructor;
          [cbn [In]; intros H;
           repeat (destruct H as [H | H]; [distinct_keys H |]);
           exact H |]).
  constructor.
Qed.

Lemma config_absent (key val : string) (o : options) :
  ~ In key (map fst o) -> config key val o = o ++ [(key, val)].
Proof.
  intros Hno. unfold config.
  destruct (has_option key o) eqn:E; [| reflexivity].
  exfalso. apply Hno. unfold has_option in E.
  apply existsb_exists in E. destruct E as [p [Hp Heq]].
  apply String.eqb_eq in Heq. subst key. now apply in_map.
Qed.

Lemma fold_config_distinct (l o : options) :
  NoDup (map fst o ++ map fst l) ->
  fold_left (fun acc kv => config (fst kv) (snd kv) acc) l o = o ++ l.
Proof.
  revert o. induction l as [| [k v] l IH]; intros o Hnd; simpl.
  - now rewrite app_nil_r.
  - simpl in Hnd. rewrite config_absent.
    + rewrite IH.
      * now rewrite <- app_assoc.
      * rewrite map_app. simpl. now rewrite <- app_assoc.
    + intros Hin. apply NoDup_remove_2 in Hnd. apply Hnd.
      apply in_or_app. now left.
Qed.

Lemma option_of_In (o : options) (k v : string) :
  NoDup (map fst o) -> In (k, v) o -> option_of k o = Some v.
Proof.
  induction o as [| [k0 v0] o IH]; simpl; [intros _ [] |].
  intros Hnd [[= -> ->] | Hin].
  - now rewrite String.eqb_refl.
  - inversion Hnd as [| ? ? Hk0 Hnd']; subst.
    destruct (String.eqb_spec k0 k) as [-> | Hne].
    + exfalso. apply Hk0. change k with (fst (k, v)). now apply in_map.
    + now apply IH.
Qed.

Lemma builder_options_as_given (dir bucket key catalog : string) :
  builder_options dir bucket key catalog
  = builder_settings dir bucket key catalog.
Proof.
  unfold builder_options. rewrite fold_config_distinct; [reflexivity |].
  apply builder_keys_distinct.
Qed.

(** X13. Whatever the catalog, bucket and key file are called, no
    setting of lines 14-21 overwrites another: the builder ends up with
    seven options under seven different keys, and every setting reads
    back as it was given. *)
Theorem builder_options_keep_every_setting
  (dir bucket key catalog : string) :
  List.length (builder_options dir bucket key catalog) = 7%nat
  /\ NoDup (map fst (builder_options dir bucket key catalog))
  /\ forall k v,
       In (k, v) (builder_settings dir bucket key catalog) ->
       option_of k (builder_options dir bucket key catalog) = Some v.
Proof.
  rewrite builder_options_as_given. split; [reflexivity |]. split.
  - apply builder_keys_distinct.
  - intros k v Hin. apply option_of_In; [| exact Hin].
    apply builder_keys_distinct.
Qed.

Lemma builder_options_keep_every_setting_witness :
  option_of "spark.sql.catalog.ice.warehouse"
    (builder_options "/srv/app" "iceberg-storage" "/tmp/tmpk3y" "ice")
  = Some "gs://iceberg-storage/warehouse".
Proof.
  apply (proj2 (proj2 (builder_options_keep_every_setting
                         "/srv/app" "iceberg-storage" "/tmp/tmpk3y" "ice"))).
  simpl. auto.
Defined.

(** ** The page: [main] *)

Lemma inputs_given_key (f : form) :
  inputs_given f = true -> exists key, uploaded_key f = Some key.
Proof.
  unfold inputs_given. destruct (uploaded_key f) as [key |].
  - intros _. now exists key.
  - rewrite andb_false_r. discriminate.
Qed.

(** [main] up to the button, when the inputs are given and the host
    grants the file and the session. *)
Lemma main_with_inputs (h : host) (f : form) (o : outside)
  (ui : list ui_event) (key path : string) (spark : SparkSession) :
  uploaded_key f = Some key ->
  inputs_given f = true ->
  temp_name h = Returned path ->
  getOrCreate h
    (builder_options (script_dir h) (typed_bucket f) path (typed_catalog f))
  = Returned spark ->
  main h f (mkWorld o ui) =
  let ready :=
    mkOutside
      (drawn o ++ ["Iceberg Query Engine";
                   "Enter your Iceberg catalog name:";
                   "Enter your GCS bucket URL:";
                   "Upload your GCP service account JSON key:";
                   "Enter your SQL Query:"; "Run Query"])
      (written o ++ [(path, key)])
      (opened o ++ [builder_options (script_dir h) (typed_bucket f) path
                      (typed_catalog f)])
      (stopped o) in
  if run_clicked f
  then
    match execute_query spark (typed_query f) (ui ++ [Progress 0]) with
    | (Returned pandas_df, ui1) =>
        match display_results pandas_df ui1 with
        | (Returned _, ui2) =>
            (Returned tt,
             mkWorld (mkOutside (drawn ready) (written ready) (opened ready)
                        (S (stopped ready))) ui2)
        | (Raised e, ui2) => (Raised e, mkWorld ready ui2)
        end
    | (Raised e, ui1) => (Raised e, mkWorld ready ui1)
    end
  else (Returned tt, mkWorld ready ui).
Proof.
  intros Hkey Hgiven Htmp Hget.
  unfold main, draw, write_file, initialize_spark, spark_stop, bind,
    get_local, set_local, lift, ret, call, progress_bar_progress, emit.
  cbn [locals screen drawn written opened stopped].
  rewrite Hkey, Hgiven, Htmp.
  cbn [locals screen drawn written opened stopped].
  rewrite Hget.
  cbn [locals screen drawn written opened stopped].
  rewrite <- !app_assoc. cbn [app].
  destruct (run_clicked f); [| reflexivity].
  cbn [locals screen drawn written opened stopped].
  destruct (execute_query spark (typed_query f) (ui ++ [Progress 0]))
    as [[pandas_df | e] ui1]; [| reflexivity].
  cbn [locals screen drawn written opened stopped].
  destruct (display_results pandas_df ui1) as [[[] | e] ui2]; reflexivity.
Qed.

Lemma keyfile_option (dir bucket key catalog : string) :
  option_of "spark.hadoop.fs.gs.auth.service.account.json.keyfile"
    (builder_options dir bucket key catalog) = Some key.
Proof.
  rewrite builder_options_as_given.
  apply option_of_In; [apply builder_keys_distinct |].
  unfold builder_settings. cbn [In]. tauto.
Qed.

(** X14. With the three inputs given, on a host that grants the file and
    the session, one run of the page never raises; it writes the uploaded
    key to the temporary file, asks for a session whose key-file option is
    that file, and stops the session only if Run Query was clicked: a run
    without the click leaves the session open and shows no result. *)
Theorem main_opens_a_session_and_stops_it_after_a_query
  (h : host) (f : form) (o : outside) (ui : list ui_event)
  (key path : string) (spark : SparkSession) :
  uploaded_key f = Some key ->
  inputs_given f = true ->
  temp_name h = Returned path ->
  getOrCreate h
    (builder_options (script_dir h) (typed_bucket f) path (typed_catalog f))
  = Returned spark ->
  exists o' ui',
    main h f (mkWorld o ui) = (Returned tt, mkWorld o' ui')
    /\ written o' = written o ++ [(path, key)]
    /\ opened o'
       = opened o ++ [builder_options (script_dir h) (typed_bucket f) path
                        (typed_catalog f)]
    /\ option_of "spark.hadoop.fs.gs.auth.service.account.json.keyfile"
         (builder_options (script_dir h) (typed_bucket f) path
            (typed_catalog f)) = Some path
    /\ stopped o' = (if run_clicked f then S (stopped o) else stopped o)
    /\ (run_clicked f = false -> ui' = ui).
Proof.
  intros Hkey Hgiven Htmp Hget.
  rewrite (main_with_inputs h f o ui key path spark Hkey Hgiven Htmp Hget).
  cbv zeta.
  destruct (run_clicked f).
  - destruct (execute_display_outcome spark (typed_query f)
                (ui ++ [Progress 0]))
      as [result [shown [shown' [ev [H1 [H2 _]]]]]].
    rewrite H1, H2. eexists _, _. split; [reflexivity |].
    cbn [written opened stopped].
    repeat split; auto using keyfile_option. discriminate.
  - eexists _, _. split; [reflexivity |].
    cbn [written opened stopped].
    repeat split; auto using keyfile_option.
Qed.

Lemma main_opens_a_session_and_stops_it_after_a_query_witness :
  exists o' ui',
    main (granting_host (failing_session plain_engine)) (filled_form false)
      (mkWorld nothing_outside [])
    = (Returned tt, mkWorld o' ui')
    /\ written o' = written nothing_outside ++ [("/tmp/tmpk3y", "{}")]
    /\ opened o'
       = opened nothing_outside
         ++ [builder_options "/srv/app" "iceberg-storage" "/tmp/tmpk3y"
               "ice"]
    /\ option_of "spark.hadoop.fs.gs.auth.service.account.json.keyfile"
         (builder_options "/srv/app" "iceberg-storage" "/tmp/tmpk3y" "ice")
       = Some "/tmp/tmpk3y"
    /\ stopped o' = stopped nothing_outside
    /\ (false = false -> ui' = []).
Proof.
  apply (main_opens_a_session_and_stops_it_after_a_query
           (granting_host (failing_session plain_engine)) (filled_form false)
           nothing_outside [] "{}" "/tmp/tmpk3y" (failing_session plain_engine)).
  - reflexivity.
  - reflexivity.
  - reflexivity.
  - reflexivity.
Defined.

(** X15. After a click on Run Query the page shows the progress bar at 0
    and then, whatever the session answers, exactly one of a table, an
    informational notice and an error. *)
Theorem main_shows_one_outcome_per_click
  (h : host) (f : form) (o : outside) (ui : list ui_event)
  (key path : string) (spark : SparkSession) :
  uploaded_key f = Some key ->
  inputs_given f = true ->
  temp_name h = Returned path ->
  getOrCreate h
    (builder_options (script_dir h) (typed_bucket f) path (typed_catalog f))
  = Returned spark ->
  run_clicked f = true ->
  exists o' shown ev,
    main h f (mkWorld o ui)
    = (Returned tt, mkWorld o' (ui ++ Progress 0 :: shown))
    /\ outcomes_of shown = [ev].
Proof.
  intros Hkey Hgiven Htmp Hget Hclick.
  rewrite (main_with_inputs h f o ui key path spark Hkey Hgiven Htmp Hget).
  cbv zeta. rewrite Hclick.
  destruct (execute_display_outcome spark (typed_query f)
              (ui ++ [Progress 0]))
    as [result [shown [shown' [ev [H1 [H2 [H3 _]]]]]]].
  rewrite H1, H2. eexists _, (shown ++ shown'), ev.
  split; [| exact H3].
  now rewrite <- !app_assoc.
Qed.

Lemma main_shows_one_outcome_per_click_witness :
  exists o' shown ev,
    main (granting_host (failing_session plain_engine)) (filled_form true)
      (mkWorld nothing_outside [])
    = (Returned tt, mkWorld o' ([] ++ Progress 0 :: shown))
    /\ outcomes_of shown = [ev].
Proof.
  apply (main_shows_one_outcome_per_click
           (granting_host (failing_session plain_engine)) (filled_form true)
           nothing_outside [] "{}" "/tmp/tmpk3y" (failing_session plain_engine)).
  - reflexivity.
  - reflexivity.
  - reflexivity.
  - reflexivity.
  - reflexivity.
Defined.

(** X16. Until the catalog name, the bucket and the key file are all
    given, a run of the page draws its four input widgets and does
    nothing else: no file is written, no session is asked for or
    stopped, and nothing is shown. *)
Theorem main_waits_for_its_inputs
  (h : host) (f : form) (o : outside) (ui : list ui_event) :
  inputs_given f = false ->
  main h f (mkWorld o ui)
  = (Returned tt,
     mkWorld
       (mkOutside
          (drawn o ++ ["Iceberg Query Engine";
                       "Enter your Iceberg catalog name:";
                       "Enter your GCS bucket URL:";
                       "Upload your GCP service account JSON key:"])
          (written o) (opened o) (stopped o))
       ui).
Proof.
  intros Hnot.
  unfold main, draw, bind, get_local, set_local, ret.
  cbn [locals screen drawn written opened stopped].
  rewrite Hnot, <- !app_assoc. cbn [app].
  now destruct (uploaded_key f).
Qed.

Lemma main_waits_for_its_inputs_witness :
  main refusing_host
    {| typed_catalog := "ice"; typed_bucket := "iceberg-storage";
       uploaded_key := None; typed_query := ""; run_clicked := true |}
    (mkWorld nothing_outside [])
  = (Returned tt,
     mkWorld
       (mkOutside
          (drawn nothing_outside
             ++ ["Iceberg Query Engine";
                 "Enter your Iceberg catalog name:";
                 "Enter your GCS bucket URL:";
                 "Upload your GCP service account JSON key:"])
          (written nothing_outside) (opened nothing_outside)
          (stopped nothing_outside))
       []).
Proof.
  apply main_waits_for_its_inputs. reflexivity.
Defined.

(** X17. [main] has no handler around the session set-up: when
    [getOrCreate] raises, the exception leaves [main], the key file is
    already written and stays, nothing is shown and nothing is stopped. *)
Theorem main_does_not_catch_a_session_failure
  (h : host) (f : form) (o : outside) (ui : list ui_event)
  (key path : string) (e : exn) :
  uploaded_key f = Some key ->
  inputs_given f = true ->
  temp_name h = Returned path ->
  getOrCreate h
    (builder_options (script_dir h) (typed_bucket f) path (typed_catalog f))
  = Raised e ->
  exists o',
    main h f (mkWorld o ui) = (Raised e, mkWorld o' ui)
    /\ written o' = written o ++ [(path, key)]
    /\ stopped o' = stopped o.
Proof.
  intros Hkey Hgiven Htmp Hget.
  unfold main, draw, write_file, initialize_spark, bind, get_local,
    set_local, lift, ret.
  cbn [locals screen drawn written opened stopped].
  rewrite Hkey, Hgiven, Htmp.
  cbn [locals screen drawn written opened stopped].
  rewrite Hget. eexists. split; [reflexivity |]. now split.
Qed.

Lemma main_does_not_catch_a_session_failure_witness :
  exists o',
    main refusing_host (filled_form true) (mkWorld nothing_outside [])
    = (Raised (EngineError "Java gateway exited"), mkWorld o' [])
    /\ written o' = written nothing_outside ++ [("/tmp/tmpk3y", "{}")]
    /\ stopped o' = stopped nothing_outside.
Proof.
  apply (main_does_not_catch_a_session_failure refusing_host
           (filled_form true) nothing_outside [] "{}" "/tmp/tmpk3y").
  - reflexivity.
  - reflexivity.
  - reflexivity.
  - reflexivity.
Defined.

